(** * Better-Proposals scraper: a shallow embedding of [main.py]

    The development follows the source top-down:
    - [PyStr]: the Python string primitives the scraper relies on
      ([in], [str.replace], [str.strip]) and the fragment of [re] that its
      four patterns use, as a small backtracking matcher;
    - [Extraction]: [extract_certificate_info]'s block collection,
      [manual_extract] and [parse_with_openai];
    - [Session]: [check_authentication_status], [setup_driver], [cleanup]
      and [run];
    - [Batch]: the DataFrame operations used by
      [process_urls_from_sheet], the two sheet readers and the batch loop;
    - [Fixtures]: the concrete pages, sheets and runs of the examples;
    - [Navigation]: [navigate_directly_to_document], [navigate_to_document]
      and [login] against a driver whose answers depend on the calls made
      so far, with [NavFixtures] and [More] for the later statements.

    The lemmas and theorems follow the definitions, in the same order.

    Python strings are modelled as [string]; a character stands for a code
    point below 256.  Exceptions are modelled by the [res] type, and
    [try_except] is Python's [try: ... except Exception: ...]. *)

From Stdlib Require Import ZArith Ascii String.
From stdpp Require Import gmap strings list fin_maps.

Set Warnings "-register-all".
Open Scope string_scope.

(** ** Exceptions *)

Inductive res (A : Type) : Type :=
| Ret (a : A)
| Exc (msg : string).
Arguments Ret {A} a.
Arguments Exc {A} msg.

#[global] Instance res_ret : MRet res := fun _ a => Ret a.
#[global] Instance res_bind : MBind res := fun _ _ k m =>
  match m with
  | Ret a => k a
  | Exc e => Exc e
  end.

Definition try_except {A} (body : res A) (handler : string → res A) : res A :=
  match body with
  | Ret a => Ret a
  | Exc e => handler e
  end.

(** ** Python strings and the [re] fragment *)

Module PyStr.

(** The double-quote character, which occurs in the HTML patterns. *)
Definition dq : ascii := ascii_of_nat 34.

(** [str.isspace] on one code point below 256; the same set is what [\s]
    matches in a [str] pattern. *)
Definition isspace (c : ascii) : bool :=
  let n := nat_of_ascii c in
  ((9 <=? n)%nat && (n <=? 13)%nat) || ((28 <=? n)%nat && (n <=? 32)%nat)
  || (n =? 133)%nat || (n =? 160)%nat.

(** [strip_prefix p s] is [Some r] when [s = p ++ r]. *)
Fixpoint strip_prefix (p s : string) : option string :=
  match p with
  | "" => Some s
  | String a p' =>
      match s with
      | "" => None
      | String b s' => if Ascii.eqb a b then strip_prefix p' s' else None
      end
  end.

Definition startswith (p s : string) : bool :=
  match strip_prefix p s with Some _ => true | None => false end.

(** [contains p s] is Python's [p in s]. *)
Fixpoint contains (p s : string) : bool :=
  startswith p s
  || match s with
     | "" => false
     | String _ s' => contains p s'
     end.

(** [s.replace(old, new)] for a non-empty [old]: occurrences are replaced
    left to right without overlap.  [skip] counts the characters of the
    occurrence just replaced that are still to be dropped. *)
Fixpoint replace_from (old new : string) (skip : nat) (s : string) : string :=
  match s with
  | "" => ""
  | String c s' =>
      match skip with
      | S k => replace_from old new k s'
      | O =>
          if startswith old s
          then new ++ replace_from old new (String.length old - 1)%nat s'
          else String c (replace_from old new 0 s')
      end
  end.

Definition replace (old new s : string) : string := replace_from old new 0 s.

Fixpoint lstrip (s : string) : string :=
  match s with
  | "" => ""
  | String c s' => if isspace c then lstrip s' else s
  end.

Fixpoint rstrip (s : string) : string :=
  match s with
  | "" => ""
  | String c s' =>
      match rstrip s' with
      | "" => if isspace c then "" else String c ""
      | r => String c r
      end
  end.

(** [s.strip()] *)
Definition strip (s : string) : string := rstrip (lstrip s).

(** *** The regular expressions of [main.py]

    A pattern is a sequence of tokens; every pattern of the source has
    exactly one capture group, so a successful match is represented by
    the text of group 1.  All patterns are used with [re.DOTALL] or
    contain no dot. *)

Inductive tok : Type :=
| TChar (c : ascii)                 (* a literal character *)
| TLazyAny                          (* .*?   *)
| TGroupLazyAny                     (* (.*?) *)
| TStar (p : ascii → bool)          (* [...]* , greedy *)
| TPlus (p : ascii → bool)          (* \s+ , greedy *)
| TGroupPlus (p : ascii → bool).    (* ([...]+) , greedy *)

Definition pattern := list tok.

Fixpoint lit (s : string) : pattern :=
  match s with
  | "" => []
  | String c s' => TChar c :: lit s'
  end.

Section Backtracking.
(** [k] is the matcher of the rest of the pattern. *)
Variable k : string → option string.

(** [.*?]: try the rest first, consume one more character on failure. *)
Fixpoint lazy_any (s : string) : option string :=
  match k s with
  | Some g => Some g
  | None =>
      match s with
      | "" => None
      | String _ s' => lazy_any s'
      end
  end.

(** [(.*?)]: as [lazy_any], and the consumed text is the group. *)
Fixpoint lazy_group (s : string) : option string :=
  match k s with
  | Some _ => Some ""
  | None =>
      match s with
      | "" => None
      | String c s' => String c <$> lazy_group s'
      end
  end.

(** [[...]*]: consume as much as possible, give back on failure. *)
Fixpoint greedy_star (p : ascii → bool) (s : string) : option string :=
  match s with
  | String c s' =>
      if p c
      then match greedy_star p s' with
           | Some g => Some g
           | None => k s
           end
      else k s
  | "" => k ""
  end.

Definition greedy_plus (p : ascii → bool) (s : string) : option string :=
  match s with
  | String c s' => if p c then greedy_star p s' else None
  | "" => None
  end.

Fixpoint greedy_star_group (p : ascii → bool) (s : string) : option string :=
  match s with
  | String c s' =>
      if p c
      then match greedy_star_group p s' with
           | Some g => Some (String c g)
           | None => match k s with Some _ => Some "" | None => None end
           end
      else match k s with Some _ => Some "" | None => None end
  | "" => match k "" with Some _ => Some "" | None => None end
  end.

Definition greedy_plus_group (p : ascii → bool) (s : string) : option string :=
  match s with
  | String c s' => if p c then String c <$> greedy_star_group p s' else None
  | "" => None
  end.
End Backtracking.

(** [match_here pat s]: match [pat] anchored at the start of [s]. *)
Fixpoint match_here (pat : pattern) : string → option string :=
  match pat with
  | [] => fun _ => Some ""
  | TChar c :: pat' =>
      fun s =>
        match s with
        | String d s' => if Ascii.eqb c d then match_here pat' s' else None
        | "" => None
        end
  | TLazyAny :: pat' => lazy_any (match_here pat')
  | TGroupLazyAny :: pat' => lazy_group (match_here pat')
  | TStar p :: pat' => greedy_star (match_here pat') p
  | TPlus p :: pat' => greedy_plus (match_here pat') p
  | TGroupPlus p :: pat' => greedy_plus_group (match_here pat') p
  end.

(** [re.search(pat, s)]: the leftmost match; [Some g] carries [group(1)],
    [None] is Python's [None]. *)
Definition re_search (pat : pattern) (s : string) : option string :=
  lazy_any (match_here pat) s.

(** *** Reading a labelled-value pattern without backtracking

    [find_after x s] is the text after the first occurrence of [x] in [s];
    [find_before x s] is the text before it. *)

Fixpoint find_after (x s : string) : option string :=
  match strip_prefix x s with
  | Some r => Some r
  | None =>
      match s with
      | "" => None
      | String _ s' => find_after x s'
      end
  end.

Fixpoint find_before (x s : string) : option string :=
  if startswith x s then Some ""
  else match s with
       | "" => None
       | String c s' => String c <$> find_before x s'
       end.

Inductive suffix : string → string → Prop :=
| suffix_refl s : suffix s s
| suffix_skip c s u : suffix u s → suffix u (String c s).

(** A continuation that, once it fails, fails on every later suffix. *)
Definition fails_later (k : string → option string) : Prop :=
  ∀ t u, suffix u t → k t = None → k u = None.

End PyStr.

(** ** Python values and dictionaries *)

(** The values that flow through the scraper: JSON values returned by the
    model service, and the cells of a DataFrame. *)
Inductive pyval : Type :=
| PyNone
| PyBool (b : bool)
| PyInt (n : Z)
| PyStr (s : string)
| PyList (l : list pyval)
| PyDict (d : gmap string pyval).

Abbreviation dict := (gmap string pyval).

(** [d[k]] *)
Definition getitem (d : dict) (k : string) : res pyval :=
  match d !! k with
  | Some v => Ret v
  | None => Exc ("'" ++ k ++ "'")   (* str(KeyError(k)) *)
  end.

(** [v[k] = x] on an arbitrary value: only a dict accepts a string key. *)
Definition setitem (v : pyval) (k : string) (x : pyval) : res dict :=
  match v with
  | PyDict d => Ret (<[k := x]> d)
  | _ => Exc "TypeError: object does not support str item assignment"
  end.

(** [v == s] for a string literal [s] *)
Definition eq_str (v : pyval) (s : string) : bool :=
  match v with
  | PyStr t => String.eqb t s
  | _ => false
  end.

(** ** Field extraction *)

Module Extraction.
Import PyStr.

Definition not_found : string := "Not found".
Definition marker : string := "Sent by".

(** One entry of [sent_by_blocks]: [{"html": ..., "text": ...}]. *)
Record block : Type := { html : string; text : string }.

(** The dictionary returned by [extract_certificate_info]. *)
Record raw_extraction : Type := {
  certificate_html : string;
  timeline_html : string;
  sent_by_blocks : list block
}.

(** What the page shows to [extract_certificate_info]: the markup of the
    certificate section ([None] when the wait times out) and, for each
    element of class timeline-block, its markup and the texts of its
    timeline-title sub-elements. *)
Record timeline_block : Type := { outer_html : string; titles : list string }.
Record page : Type := {
  certificate_section : option string;
  timeline_blocks : list timeline_block
}.

(** One iteration of the loop over [timeline_blocks]. *)
Definition timeline_step (acc : string * list block) (b : timeline_block)
  : string * list block :=
  let '(timeline_blocks_html, sent) := acc in
  let block_html := outer_html b in
  (timeline_blocks_html ++ block_html,
   match titles b with
   | title_text :: _ =>
       if contains marker title_text
       then (sent ++ [{| html := block_html; text := title_text |}])%list
       else sent
   | [] => sent
   end).

(** [extract_certificate_info]; [Exc] stands for any exception raised by
    the driver while the page is read, which the method turns into [None]. *)
Definition extract_certificate_info (p : res page) : option raw_extraction :=
  match p with
  | Exc _ => None
  | Ret p =>
      let certificate_html := default "" (certificate_section p) in
      let '(timeline_blocks_html, sent) :=
        fold_left timeline_step (timeline_blocks p) ("", []) in
      Some {| certificate_html := certificate_html;
              timeline_html := timeline_blocks_html;
              sent_by_blocks := sent |}
  end.

(** [<div class="certificate-value">] *)
Definition value_open : string :=
  "<div class=" ++ String dq "certificate-value" ++ String dq ">".

(** [LABEL.*?<div class="certificate-value">(.*?)</div>] *)
Definition value_pattern (label : string) : pattern :=
  (lit label ++ [TLazyAny] ++ lit value_open ++ [TGroupLazyAny]
   ++ lit "</div>")%list.

(** [<div class="timeline-title[^>]*">Sent by\s+(.*?)</div>] *)
Definition timeline_pattern : pattern :=
  (lit ("<div class=" ++ String dq "timeline-title")
   ++ [TStar (fun c => negb (Ascii.eqb c ">"))]
   ++ lit (String dq ">Sent by")
   ++ [TPlus isspace; TGroupLazyAny] ++ lit "</div>")%list.

(** The loop shared by [parse_with_openai] and [manual_extract]: the first
    block whose text contains the marker gives the value. *)
Fixpoint first_sent_by (blocks : list block) : option string :=
  match blocks with
  | [] => None
  | b :: rest =>
      if contains marker (text b)
      then Some (strip (replace marker "" (text b)))
      else first_sent_by rest
  end.

(** The model service as [parse_with_openai] sees it: the call raises, or
    its content is not JSON, or [json.loads] yields a value. *)
Inductive api_response : Type :=
| ApiRaises (e : string)
| ApiInvalidJson
| ApiJson (v : pyval).

(** [openai.api_key] is falsy when unset or empty. *)
Definition key_set (api_key : option string) : bool :=
  match api_key with
  | Some (String _ _) => true
  | _ => false
  end.

Section Tiers.
(** [re.search], possibly raising. *)
Variable search : pattern → string → res (option string).

(** One of the three guarded searches over the certificate markup. *)
Definition labelled_field (label key certificate_html : string)
    (result : dict) : res dict :=
  if contains label certificate_html then
    try_except
      (m ← search (value_pattern label) certificate_html;
       mret (match m with
             | Some g => <[key := PyStr (strip g)]> result
             | None => result
             end))
      (fun _ => mret result)
  else mret result.

Definition manual_extract (raw_data : raw_extraction) (sent_by : string)
  : res dict :=
  let result : dict :=
    <["Sent by" := PyStr sent_by]>
      (<["IP address" := PyStr not_found]>
         (<["Signed date" := PyStr not_found]>
            (<["Signed by" := PyStr not_found]> ∅))) in
  let certificate_html := certificate_html raw_data in
  let timeline_html := timeline_html raw_data in
  result ← labelled_field "Accepted and Signed by" "Signed by"
             certificate_html result;
  result ← labelled_field "Accepted and Signed on" "Signed date"
             certificate_html result;
  result ← labelled_field "IP Address from signature location" "IP address"
             certificate_html result;
  current ← getitem result "Sent by";
  result ← mret
    (if eq_str current not_found
        && bool_decide (sent_by_blocks raw_data ≠ [])
     then match first_sent_by (sent_by_blocks raw_data) with
          | Some s => <["Sent by" := PyStr s]> result
          | None => result
          end
     else result);
  current ← getitem result "Sent by";
  if eq_str current not_found then
    try_except
      (m ← search timeline_pattern timeline_html;
       mret (match m with
             | Some g => <["Sent by" := PyStr (strip g)]> result
             | None => result
             end))
      (fun _ => mret result)
  else mret result.

(** The request sent to the model service: the prompt is a fixed template
    around the certificate markup and the directly extracted sender. *)
Definition request : Type := string * string.

Definition direct_sent_by (raw_data : raw_extraction) : string :=
  default not_found (first_sent_by (sent_by_blocks raw_data)).

(** [parse_with_openai]: the requests sent to the model service, and the
    value returned.  The guard [if raw_data.get('sent_by_blocks')] is
    subsumed by the loop, which does nothing on an empty list. *)
Definition parse_with_openai (api_key : option string)
    (chat : request → api_response) (raw_data : raw_extraction)
  : list request * res dict :=
  let sent_by := direct_sent_by raw_data in
  let '(calls, attempt) :=
    if negb (key_set api_key) then ([], manual_extract raw_data sent_by)
    else
      let prompt := (certificate_html raw_data, sent_by) in
      ([prompt],
       match chat prompt with
       | ApiRaises e => Exc e
       | ApiInvalidJson => manual_extract raw_data sent_by
       | ApiJson parsed_data => setitem parsed_data "Sent by" (PyStr sent_by)
       end) in
  (calls,
   try_except
     (try_except attempt (fun _ => manual_extract raw_data sent_by))
     (fun _ => manual_extract raw_data not_found)).
End Tiers.

(** [re.search] as implemented by the matcher above: it never raises. *)
Definition py_search (pat : pattern) (s : string) : res (option string) :=
  Ret (re_search pat s).

(** The value one guarded search leaves in its field, for any behaviour of
    [re.search]. *)
Definition field_outcome (search : pattern → string → res (option string))
    (label certificate_html : string) : string :=
  if contains label certificate_html then
    match search (value_pattern label) certificate_html with
    | Ret (Some g) => strip g
    | _ => not_found
    end
  else not_found.

(** The sender [manual_extract] settles on, for any behaviour of
    [re.search]: the value passed in, else the first marked candidate, else
    the capture of the timeline pattern. *)
Definition sent_by_outcome (search : pattern → string → res (option string))
    (raw_data : raw_extraction) (sent_by : string) : string :=
  let from_blocks :=
    if String.eqb sent_by not_found && bool_decide (sent_by_blocks raw_data ≠ [])
    then default sent_by (first_sent_by (sent_by_blocks raw_data))
    else sent_by in
  if String.eqb from_blocks not_found then
    match search timeline_pattern (timeline_html raw_data) with
    | Ret (Some g) => strip g
    | _ => from_blocks
    end
  else from_blocks.

(** A result dictionary with the four keys. *)
Definition fields_dict (signed_by signed_date ip sent_by : string) : dict :=
  <["Sent by" := PyStr sent_by]>
    (<["IP address" := PyStr ip]>
       (<["Signed date" := PyStr signed_date]>
          (<["Signed by" := PyStr signed_by]> ∅))).

(** The pattern tier in the words of the specification: find the label,
    then the next value-holding element after it, and take its content up
    to the closing tag. *)
Definition labelled_value (label s : string) : option string :=
  after_label ← find_after label s;
  after_open ← find_after value_open after_label;
  find_before "</div>" after_open.

Definition spec_field (label certificate_html : string) : string :=
  match labelled_value label certificate_html with
  | Some g => strip g
  | None => not_found
  end.

(** [s] contains [label] followed eventually by [elem]. *)
Definition followed_eventually (label elem s : string) : Prop :=
  ∃ pre mid post, s = pre ++ label ++ mid ++ elem ++ post.

(** The label phrase and the result key of each certificate field. *)
Definition certificate_fields : list (string * string) :=
  [("Accepted and Signed by", "Signed by");
   ("Accepted and Signed on", "Signed date");
   ("IP Address from signature location", "IP address")].

(** The four keys of the pattern tier's result. *)
Definition result_keys : gset string :=
  {[ "Signed by"; "Signed date"; "IP address"; "Sent by" ]}.

(** A raw extraction as [extract_certificate_info] builds it: every
    candidate's title contains the marker. *)
Definition candidates_marked (raw_data : raw_extraction) : Prop :=
  Forall (fun b => contains marker (text b) = true) (sent_by_blocks raw_data).

End Extraction.

(** ** One browser session *)

Module Session.
Import PyStr Extraction.

(** *** [check_authentication_status] *)

(** [driver.find_element(By.ID, ...)]: an element, NoSuchElementException,
    or another exception. *)
Inductive find_result : Type :=
| Found
| NoSuchElement
| FindError (e : string).

(** What the driver answers while the status is checked;
    [find_user_menu] is the number of elements of class user-menu that
    [find_elements] returns, or the exception it raises. *)
Record dom_view : Type := {
  current_url : string;
  find_form_login : find_result;
  find_user_menu : res nat
}.

Inductive probe : Type := ProbeFormLogin | ProbeUserMenu.

(** [try: if find_elements(...): return True / except: pass] *)
Definition user_menu_found (v : dom_view) : bool :=
  match find_user_menu v with
  | Ret (S _) => true
  | _ => false
  end.

(** The result together with the DOM probes issued, in order. *)
Definition check_authentication_status (v : dom_view) : list probe * res bool :=
  let current_url := current_url v in
  if contains "proposals/view" current_url || contains "dashboard" current_url
  then ([], Ret true)
  else if contains "/login/" current_url then
    match find_form_login v with
    | Found => ([ProbeFormLogin], Ret false)
    | NoSuchElement =>
        ([ProbeFormLogin; ProbeUserMenu],
         if user_menu_found v then Ret true else Ret false)
    | FindError e => ([ProbeFormLogin], Exc e)
    end
  else
    ([ProbeUserMenu], if user_menu_found v then Ret true else Ret false).

(** *** [run] and [cleanup] *)

Inductive event : Type :=
| Launched      (* uc.Chrome(...) returned: a browser is running *)
| QuitCalled.   (* driver.quit() was invoked *)

(** The scraper object: whether [self.driver] is set, and what happened to
    the browser so far. *)
Record scraper : Type := { driver : bool; events : list event }.

Definition fresh : scraper := {| driver := false; events := [] |}.

(** Methods of the scraper: state passing, with exceptions. *)
Definition M (A : Type) : Type := scraper → scraper * res A.

#[global] Instance M_ret : MRet M := fun _ a s => (s, Ret a).
#[global] Instance M_bind : MBind M := fun _ _ k m s =>
  match m s with
  | (s', Ret a) => k a s'
  | (s', Exc e) => (s', Exc e)
  end.

Definition try_M {A} (body : M A) (handler : string → M A) : M A :=
  fun s =>
    match body s with
    | (s', Exc e) => handler e s'
    | r => r
    end.

Definition lift {A} (r : res A) : M A := fun s => (s, r).

(** How the browser and the model service behave during one [run].
    [navigate_directly_to_document], [login] and [navigate_to_document]
    are represented by what they return; [Exc] is an exception escaping
    the call. *)
Record script : Type := {
  chrome : res unit;                  (* uc.Chrome(options=options) *)
  maximize_window : res unit;         (* self.driver.maximize_window() *)
  navigate_directly_to_document : res bool;
  login : res bool;
  navigate_to_document : res bool;
  page_read : res page;
  api_key : option string;
  chat : request → api_response;
  quit : res unit                     (* self.driver.quit() *)
}.

(** [self.driver = uc.Chrome(...)] assigns only when the constructor
    returns. *)
Definition start_chrome (w : script) : M unit :=
  fun s =>
    match chrome w with
    | Ret _ => ({| driver := true; events := (events s ++ [Launched])%list |}, Ret ())
    | Exc e => (s, Exc e)
    end.

Definition setup_driver (w : script) : M bool :=
  try_M
    (_ ← start_chrome w;
     _ ← lift (maximize_window w);
     mret true)
    (fun _ => mret false).

Definition driver_quit (w : script) : M unit :=
  fun s =>
    ({| driver := driver s; events := (events s ++ [QuitCalled])%list |}, quit w).

Definition cleanup (w : script) : M unit :=
  try_M
    (fun s => if driver s then driver_quit w s else (s, Ret ()))
    (fun _ => mret ()).

(** The tail of [run] once the document page is shown. *)
Definition extract_and_parse (w : script) : M (option dict) :=
  match extract_certificate_info (page_read w) with
  | None => _ ← cleanup w; mret None
  | Some raw_data =>
      parsed_data ← lift (parse_with_openai py_search (api_key w) (chat w) raw_data).2;
      if bool_decide (parsed_data = ∅)
      then _ ← cleanup w; mret None
      else _ ← cleanup w; mret (Some parsed_data)
  end.

Definition run (w : script) : M (option dict) :=
  try_M
    (ok ← setup_driver w;
     if negb ok then mret None
     else
       direct ← lift (navigate_directly_to_document w);
       if negb direct then
         logged_in ← lift (login w);
         if negb logged_in then _ ← cleanup w; mret None
         else
           on_document ← lift (navigate_to_document w);
           if negb on_document then _ ← cleanup w; mret None
           else extract_and_parse w
       else extract_and_parse w)
    (fun _ => _ ← cleanup w; mret None).

End Session.

(** ** The batch over the spreadsheet *)

Module Batch.
Import PyStr Extraction.

(** A DataFrame with the default integer index: the column labels in
    order, and one dictionary per row.  A table read by [pd.read_csv] has
    pairwise distinct column labels. *)
Record DataFrame : Type := { columns : list string; rows : list dict }.

(** [df[c] = v] for a scalar [v]: an existing column is overwritten, a new
    label is appended. *)
Definition set_column (c : string) (v : pyval) (df : DataFrame) : DataFrame :=
  {| columns := if bool_decide (c ∈ columns df) then columns df
                else (columns df ++ [c])%list;
     rows := (fun r : dict => <[c := v]> r) <$> rows df |}.

(** The cell at row label [i] and column label [c], both of which exist
    where the batch loop writes, holds [v] afterwards. *)
Definition put_cell (i : nat) (c : string) (v : pyval) (df : DataFrame)
  : DataFrame :=
  {| columns := columns df;
     rows := alter (fun r : dict => <[c := v]> r) i (rows df) |}.

(** Statements of the loop body: they update [results_df] in place, and
    may raise; what was written before an exception stays written. *)
Definition W (A : Type) : Type := DataFrame → DataFrame * res A.

#[global] Instance W_ret : MRet W := fun _ a df => (df, Ret a).
#[global] Instance W_bind : MBind W := fun _ _ k m df =>
  match m df with
  | (df', Ret a) => k a df'
  | (df', Exc e) => (df', Exc e)
  end.

Definition try_W {A} (body : W A) (handler : string → W A) : W A :=
  fun df =>
    match body df with
    | (df', Exc e) => handler e df'
    | r => r
    end.

Definition lift_W {A} (r : res A) : W A := fun df => (df, r).

(** [df.iloc[i][c]] *)
Definition iloc_get (df : DataFrame) (i : nat) (c : string) : res pyval :=
  match rows df !! i with
  | None => Exc "single positional indexer is out-of-bounds"
  | Some r => getitem r c
  end.

(** [result.get(k, 'Not found')] *)
Definition get_or_not_found (result : dict) (k : string) : pyval :=
  default (PyStr not_found) (result !! k).

Definition extracted_columns : list string :=
  ["Extracted Signed by"; "Extracted Signed date";
   "Extracted IP address"; "Extracted Sent by"].

Definition sample_row (company url value created signed_on signed_by : string)
  : dict :=
  <["Signed by" := PyStr signed_by]>
    (<["Signed On" := PyStr signed_on]>
       (<["Date Created" := PyStr created]>
          (<["Value" := PyStr value]>
             (<["Document type" := PyStr url]>
                (<["Company" := PyStr company]> ∅))))).

(** The DataFrame built when no sheet could be read. *)
Definition sample_df : DataFrame :=
  {| columns := ["Company"; "Document type"; "Value"; "Date Created";
                 "Signed On"; "Signed by"];
     rows :=
       [sample_row "BHA Strategy"
          "https://betterproposals.io/2/proposals/view?id=2366358"
          "$33,200.00" "18 Mar 2025" "08 May 2025" "Katy Sully";
        sample_row "Integrity Design"
          "https://betterproposals.io/2/proposals/view?id=2392944"
          "$41,920.00" "04 Apr 2025" "30 Apr 2025" "Brandon Earls";
        sample_row "Providence Diamond"
          "https://betterproposals.io/2/proposals/view?id=2423564"
          "$39,710.00" "29 Apr 2025" "30 Apr 2025" "Daniel Pritsker"] |}.

(** [[a-zA-Z0-9-_]] *)
Definition sheet_id_char (c : ascii) : bool :=
  let n := nat_of_ascii c in
  ((48 <=? n)%nat && (n <=? 57)%nat) || ((65 <=? n)%nat && (n <=? 90)%nat)
  || ((97 <=? n)%nat && (n <=? 122)%nat) || (n =? 45)%nat || (n =? 95)%nat.

(** [/d/([a-zA-Z0-9-_]+)] *)
Definition sheet_id_pattern : pattern := (lit "/d/" ++ [TGroupPlus sheet_id_char])%list.

(** The CSV export address [read_google_sheet] derives. *)
Definition export_url (sheet_url : string) : string :=
  if contains "edit?usp=sharing" sheet_url
  then replace "edit?usp=sharing" "export?format=csv" sheet_url
  else if contains "edit" sheet_url
  then replace "edit" "export?format=csv" sheet_url
  else sheet_url ++ "/export?format=csv".

Section Orchestrator.
(** [pd.read_csv(url)] *)
Variable read_csv : string → res DataFrame.
(** [df.to_csv(name, index=False)] *)
Variable to_csv : string → DataFrame → res unit.
(** [BetterProposalsScraper(..., document_url, ...).run()] for the row
    at position [i]. *)
Variable scraper_run : nat → pyval → res (option dict).

Definition read_google_sheet (sheet_url : string) : res (option DataFrame) :=
  try_except
    (df ← read_csv (export_url sheet_url); mret (Some df))
    (fun _ => mret None).

Definition download_google_sheet (sheet_url : string)
  : res (option DataFrame) :=
  try_except
    (match re_search sheet_id_pattern sheet_url with
     | None => Exc "'NoneType' object has no attribute 'group'"
     | Some sheet_id =>
         df ← read_csv ("https://docs.google.com/spreadsheets/d/"
                        ++ sheet_id ++ "/export?format=csv");
         mret (Some df)
     end)
    (fun _ => mret None).

(** [if result:] on what [run] returned *)
Definition truthy (result : option dict) : bool :=
  match result with
  | Some d => negb (bool_decide (d = ∅))
  | None => false
  end.

(** What a result column keeps when [v] is assigned to one of its cells.
    The four result columns are created by [results_df[c] = '']; a string
    is kept as it is.  For any other value the answer depends on the dtype
    pandas gave such a column: an object column (pandas up to 2) keeps
    every value, a str column (pandas 3) raises TypeError unless the value
    is missing.  [at_store] is that answer of the library. *)
Variable at_store : pyval → res pyval.

Definition cell_value (v : pyval) : res pyval :=
  match v with
  | PyStr _ => Ret v
  | _ => at_store v
  end.

(** [results_df.at[i, c] = v] on a result column. *)
Definition set_at (i : nat) (c : string) (v : pyval) : W unit :=
  fun results_df =>
    match cell_value v with
    | Ret kept => (put_cell i c kept results_df, Ret ())
    | Exc e => (results_df, Exc e)
    end.

(** The four [results_df.at[i, ...] = ...] assignments, in order. *)
Definition set_extracted (i : nat) (signed_by signed_date ip sent_by : pyval)
  : W unit :=
  _ ← set_at i "Extracted Signed by" signed_by;
  _ ← set_at i "Extracted Signed date" signed_date;
  _ ← set_at i "Extracted IP address" ip;
  set_at i "Extracted Sent by" sent_by.

(** The [try] statement that is the body of the loop, for position [i]. *)
Definition process_row_body (df : DataFrame) (i : nat) : W unit :=
  try_W
    (company ← lift_W (iloc_get df i "Company");
     document_url ← lift_W (iloc_get df i "Document type");
     result ← lift_W (scraper_run i document_url);
     if truthy result then
       let d : dict := default ∅ result in
       set_extracted i
         (get_or_not_found d "Signed by")
         (get_or_not_found d "Signed date")
         (get_or_not_found d "IP address")
         (get_or_not_found d "Sent by")
     else
       set_extracted i (PyStr "Error") (PyStr "Error") (PyStr "Error")
         (PyStr "Error"))
    (fun e =>
       set_extracted i (PyStr ("Error: " ++ e)) (PyStr "Error") (PyStr "Error")
         (PyStr "Error")).

(** [results_df] after the iteration for position [i].  The handler
    assigns strings only, so the body never raises and the loop always
    goes on to the next position. *)
Definition process_row (df : DataFrame) (i : nat) (results_df : DataFrame)
  : DataFrame :=
  (process_row_body df i results_df).1.

(** [min(max_urls, len(df))], and [range] of it. *)
Definition urls_to_process (max_urls : Z) (df : DataFrame) : nat :=
  Z.to_nat (Z.min max_urls (Z.of_nat (length (rows df)))).

(** [results_df] when the loop is over. *)
Definition process_table (df : DataFrame) (max_urls : Z) : DataFrame :=
  let results_df :=
    set_column "Extracted Sent by" (PyStr "")
      (set_column "Extracted IP address" (PyStr "")
         (set_column "Extracted Signed date" (PyStr "")
            (set_column "Extracted Signed by" (PyStr "") df))) in
  fold_left (fun acc i => process_row df i acc)
    (seq 0 (urls_to_process max_urls df)) results_df.

(** The table the batch runs over: the sheet, or the sample. *)
Definition load_table (sheet_url : string) : res DataFrame :=
  df ← try_except (read_google_sheet sheet_url)
         (fun _ => download_google_sheet sheet_url);
  mret (match df with
        | None => sample_df
        | Some df => if bool_decide (length (rows df) = 0) then sample_df else df
        end).

Definition process_urls_from_sheet (sheet_url : string) (max_urls : Z)
  : option DataFrame :=
  match
    (df ← load_table sheet_url;
     let results_df := process_table df max_urls in
     _ ← to_csv "proposal.csv" results_df;
     mret results_df)
  with
  | Ret results_df => Some results_df
  | Exc _ => None
  end.
End Orchestrator.

(** What the four assignments do to one row. *)
Definition fill_row (signed_by signed_date ip sent_by : pyval) (r : dict) : dict :=
  <["Extracted Sent by" := sent_by]>
    (<["Extracted IP address" := ip]>
       (<["Extracted Signed date" := signed_date]>
          (<["Extracted Signed by" := signed_by]> r))).

(** A row of [results_df] before the loop reaches it. *)
Definition blank_row (r : dict) : dict :=
  fill_row (PyStr "") (PyStr "") (PyStr "") (PyStr "") r.

(** The values the row at position [i] holds in its four result cells
    after its iteration. *)
Definition extracted_values (scraper_run : nat → pyval → res (option dict))
    (at_store : pyval → res pyval)
    (df : DataFrame) (i : nat) : pyval * pyval * pyval * pyval :=
  match
    (company ← iloc_get df i "Company";
     document_url ← iloc_get df i "Document type";
     result ← scraper_run i document_url;
     if truthy result then
       let d : dict := default ∅ result in
       signed_by ← cell_value at_store (get_or_not_found d "Signed by");
       signed_date ← cell_value at_store (get_or_not_found d "Signed date");
       ip ← cell_value at_store (get_or_not_found d "IP address");
       sent_by ← cell_value at_store (get_or_not_found d "Sent by");
       mret (signed_by, signed_date, ip, sent_by)
     else mret (PyStr "Error", PyStr "Error", PyStr "Error", PyStr "Error"))
  with
  | Ret values => values
  | Exc e => (PyStr ("Error: " ++ e), PyStr "Error", PyStr "Error", PyStr "Error")
  end.

Definition fill_values (v : pyval * pyval * pyval * pyval) : dict → dict :=
  let '(a, b, c, d) := v in fill_row a b c d.

(** None of the four result columns is a column of the input. *)
Definition fresh_columns (df : DataFrame) : Prop :=
  ∀ c, c ∈ extracted_columns → c ∉ columns df.

(** [out] is [df] with the four result columns appended: the same rows in
    the same order, and every original cell unchanged. *)
Definition augments (df out : DataFrame) : Prop :=
  length (rows out) = length (rows df)
  ∧ columns out = (columns df ++ extracted_columns)%list
  ∧ ∀ i r, rows df !! i = Some r →
      ∃ r', rows out !! i = Some r' ∧ ∀ c, c ∈ columns df → r' !! c = r !! c.

(** The batch with [Session.run] as the per-row pipeline; [world i] is how
    the browser and the model service behave while row [i] is processed. *)
Definition scraper_run_of (world : nat → Session.script) (i : nat)
    (document_url : pyval) : res (option dict) :=
  (Session.run (world i) Session.fresh).2.

End Batch.

(** ** Concrete inputs used by the examples below *)

Module Fixtures.
Import PyStr Extraction.

(** [<div class="timeline-title">] *)
Definition title_open : string :=
  "<div class=" ++ String dq "timeline-title" ++ String dq ">".

(** A timeline whose sender is displayed as the words of the sentinel,
    with markup inside the title element. *)
Definition page_sentinel : page :=
  {| certificate_section := None;
     timeline_blocks :=
       [{| outer_html := "<li>" ++ title_open ++ "Sent by <b>Not found</b></div></li>";
           titles := ["Sent by Not found"] |}] |}.

Definition raw_sentinel : raw_extraction :=
  {| certificate_html := "";
     timeline_html := "<li>" ++ title_open ++ "Sent by <b>Not found</b></div></li>";
     sent_by_blocks :=
       [{| html := "<li>" ++ title_open ++ "Sent by <b>Not found</b></div></li>";
           text := "Sent by Not found" |}] |}.

(** A signed document sent by Alice. *)
Definition certificate_jane : string :=
  "<p>Accepted and Signed by</p>" ++ value_open ++ "Jane Doe</div>"
  ++ "<p>Accepted and Signed on</p>" ++ value_open ++ " 08 May 2025 </div>".

Definition raw_jane : raw_extraction :=
  {| certificate_html := certificate_jane;
     timeline_html := "<li>" ++ title_open ++ "Sent by Alice</div></li>";
     sent_by_blocks :=
       [{| html := "<li>" ++ title_open ++ "Sent by Alice</div></li>";
           text := "Sent by Alice" |}] |}.

(** A certificate in which the label is followed by two value elements,
    the second one holding Jane Doe. *)
Definition certificate_two_values : string :=
  "<p>Accepted and Signed by</p>" ++ value_open ++ "John Roe</div>"
  ++ "<p>Witness</p>" ++ value_open ++ "Jane Doe</div>".

Definition raw_two_values : raw_extraction :=
  {| certificate_html := certificate_two_values;
     timeline_html := "";
     sent_by_blocks := [] |}.

(** A certificate with the three labelled values, on a page whose
    timeline has a send event. *)
Definition raw_full_alice : raw_extraction :=
  {| certificate_html :=
       certificate_jane ++ "<p>IP Address from signature location</p>"
       ++ value_open ++ "203.0.113.7</div>";
     timeline_html := "<li>" ++ title_open ++ "Sent by Alice</div></li>";
     sent_by_blocks :=
       [{| html := "<li>" ++ title_open ++ "Sent by Alice</div></li>";
           text := "Sent by Alice" |}] |}.

(** A [re.search] that raises on the pattern of the IP label. *)
Definition search_failing_on_ip (pat : pattern) (s : string)
  : res (option string) :=
  match pat with
  | TChar c :: _ => if Ascii.eqb c "I" then Exc "re.error" else py_search pat s
  | _ => py_search pat s
  end.

(** A model service that is never reached, and one that answers with a
    JSON object. *)
Definition chat_down (_ : request) : api_response := ApiRaises "connection error".
Definition chat_object (_ : request) : api_response :=
  ApiJson (PyDict (<["Signed by" := PyStr "Jane Doe"]> ∅)).

(** The browser starts, and maximising its window raises. *)
Definition script_maximize_fails : Session.script :=
  {| Session.chrome := Ret ();
     Session.maximize_window := Exc "unknown error: failed to change window state";
     Session.navigate_directly_to_document := Ret true;
     Session.login := Ret true;
     Session.navigate_to_document := Ret true;
     Session.page_read :=
       Ret {| certificate_section := Some certificate_jane; timeline_blocks := [] |};
     Session.api_key := None;
     Session.chat := chat_down;
     Session.quit := Ret () |}.

(** A run that reaches the document directly, on a signed page, and whose
    teardown raises. *)
Definition script_signed : Session.script :=
  {| Session.chrome := Ret ();
     Session.maximize_window := Ret ();
     Session.navigate_directly_to_document := Ret true;
     Session.login := Ret true;
     Session.navigate_to_document := Ret true;
     Session.page_read :=
       Ret {| certificate_section := Some certificate_jane; timeline_blocks := [] |};
     Session.api_key := None;
     Session.chat := chat_down;
     Session.quit := Exc "invalid session id" |}.

(** The login page with its form, and a page that shows a user menu. *)
Definition view_login_form : Session.dom_view :=
  {| Session.current_url := "https://betterproposals.io/2/login/";
     Session.find_form_login := Session.Found;
     Session.find_user_menu := Ret 0 |}.

Definition view_user_menu : Session.dom_view :=
  {| Session.current_url := "https://betterproposals.io/2/settings";
     Session.find_form_login := Session.NoSuchElement;
     Session.find_user_menu := Ret 1 |}.

(** A sheet that already has a column named like a result column. *)
Definition df_rerun : Batch.DataFrame :=
  {| Batch.columns := ["Company"; "Document type"; "Extracted Signed by"];
     Batch.rows :=
       [<["Extracted Signed by" := PyStr "Katy Sully"]>
          (<["Document type" := PyStr "https://betterproposals.io/2/proposals/view?id=2366358"]>
             (<["Company" := PyStr "BHA Strategy"]> ∅))] |}.

(** A two-row sheet with the two required columns. *)
Definition df_two : Batch.DataFrame :=
  {| Batch.columns := ["Company"; "Document type"];
     Batch.rows :=
       [<["Document type" := PyStr "https://betterproposals.io/2/proposals/view?id=1"]>
          (<["Company" := PyStr "Acme"]> ∅);
        <["Document type" := PyStr "https://betterproposals.io/2/proposals/view?id=2"]>
          (<["Company" := PyStr "Globex"]> ∅)] |}.

Definition read_csv_rerun (_ : string) : res Batch.DataFrame := Ret df_rerun.
Definition read_csv_two (_ : string) : res Batch.DataFrame := Ret df_two.
Definition read_csv_down (_ : string) : res Batch.DataFrame :=
  Exc "HTTP Error 404: Not Found".
Definition to_csv_ok (_ : string) (_ : Batch.DataFrame) : res unit := Ret ().

(** Per-row pipelines: one that always fails, one that raises on the first
    row and succeeds afterwards, one that always succeeds. *)
Definition run_none (_ : nat) (_ : pyval) : res (option dict) := Ret None.
Definition run_found (_ : nat) (_ : pyval) : res (option dict) :=
  Ret (Some (fields_dict "Jane Doe" "08 May 2025" "203.0.113.7" "Alice")).
Definition run_raises_first (i : nat) (u : pyval) : res (option dict) :=
  match i with
  | O => Exc "session not created"
  | S _ => run_found i u
  end.

(** What a result column does with a value that is not a string: an
    object column keeps it; a str column keeps a missing value and refuses
    any other (the message stands for the one pandas gives, which also
    names the value and its type). *)
Definition at_object (v : pyval) : res pyval := Ret v.
Definition at_str (v : pyval) : res pyval :=
  match v with
  | PyNone => Ret PyNone
  | _ => Exc "Invalid value for dtype 'str'"
  end.

Definition sheet_url : string :=
  "https://docs.google.com/spreadsheets/d/1TGjJziI8OTVekpBriyVpqcKb6z_bKOVSRaVxkLPhWYA/edit?usp=sharing".

End Fixtures.

(** ** Navigation and login against the driver

    The Selenium driver is an external system: what it answers may depend
    on everything the scraper has asked so far.  A driver is therefore a
    family of answers indexed by the history of calls, and the methods
    thread that history.  [time.sleep] is not a driver call and is left
    out. *)

Module Navigation.
Import PyStr.

(** A web element handle. *)
Definition elem : Type := nat.

Inductive call : Type :=
| Get (url : string)              (* driver.get(url) *)
| CurrentUrl                      (* driver.current_url *)
| WaitPresence (id : string)      (* WebDriverWait(...).until(presence_of_element_located((By.ID, id))) *)
| Clear (e : elem)                (* e.clear() *)
| SendKeys (e : elem) (keys : string)   (* e.send_keys(keys) *)
| FindElements (xpath : string)   (* driver.find_elements(By.XPATH, xpath) *)
| Click (e : elem).               (* e.click() *)

(** The answers of the driver, given the calls made before. *)
Record driver : Type := {
  on_get : list call → string → res unit;
  on_current_url : list call → res string;
  on_wait_presence : list call → string → res elem;
  on_clear : list call → elem → res unit;
  on_send_keys : list call → elem → string → res unit;
  on_find_elements : list call → string → res (list elem);
  on_click : list call → elem → res unit
}.

(** A method: from the history so far to the history afterwards and the
    value returned or the exception raised. *)
Definition D (A : Type) : Type := list call → list call * res A.

#[global] Instance D_ret : MRet D := fun _ a h => (h, Ret a).
#[global] Instance D_bind : MBind D := fun _ _ k m h =>
  match m h with
  | (h', Ret a) => k a h'
  | (h', Exc e) => (h', Exc e)
  end.

Definition try_D {A} (body : D A) (handler : string → D A) : D A :=
  fun h =>
    match body h with
    | (h', Exc e) => handler e h'
    | r => r
    end.

(** One call: it is recorded, and answered from the history before it. *)
Definition perform {A} (c : call) (answer : list call → res A) : D A :=
  fun h => ((h ++ [c])%list, answer h).

(** [//button[@type='submit']] *)
Definition submit_xpath : string := "//button[@type='submit']".

Section Scraper.
Variable d : driver.
Variables login_url document_url email password : string.

Definition get (url : string) : D unit :=
  perform (Get url) (fun h => on_get d h url).
Definition current_url : D string :=
  perform CurrentUrl (on_current_url d).
Definition wait_presence (id : string) : D elem :=
  perform (WaitPresence id) (fun h => on_wait_presence d h id).
Definition clear (e : elem) : D unit :=
  perform (Clear e) (fun h => on_clear d h e).
Definition send_keys (e : elem) (keys : string) : D unit :=
  perform (SendKeys e keys) (fun h => on_send_keys d h e keys).
Definition find_elements (xpath : string) : D (list elem) :=
  perform (FindElements xpath) (fun h => on_find_elements d h xpath).
Definition click (e : elem) : D unit :=
  perform (Click e) (fun h => on_click d h e).

(** The URL is read again by the [elif] test and by the warning that is
    logged in the last branch. *)
Definition navigate_directly_to_document : D bool :=
  try_D
    (_ ← get document_url;
     url ← current_url;
     if contains "proposals/view" url then mret true
     else
       url ← current_url;
       if contains "/login/" url then mret false
       else _ ← current_url; mret false)
    (fun _ => mret false).

Definition navigate_to_document : D bool :=
  try_D
    (current ← current_url;
     if contains document_url current then mret true
     else
       _ ← get document_url;
       url ← current_url;
       if contains "proposals/view" url then mret true
       else _ ← current_url; mret false)
    (fun _ => mret false).

(** The inner [try] of [login]: find the submit buttons and click the
    first; [false] stands for its two [return False]. *)
Definition click_submit : D bool :=
  try_D
    (login_buttons ← find_elements submit_xpath;
     match login_buttons with
     | login_button :: _ => _ ← click login_button; mret true
     | [] => mret false
     end)
    (fun _ => mret false).

Definition login : D bool :=
  try_D
    (direct ← navigate_directly_to_document;
     if (direct : bool) then mret true
     else
       url ← current_url;
       _ ← (if negb (contains "/login/" url) then get login_url
            else (mret () : D unit));
       email_field ← wait_presence "Email";
       _ ← clear email_field;
       _ ← send_keys email_field email;
       password_field ← wait_presence "Password";
       _ ← clear password_field;
       _ ← send_keys password_field password;
       clicked ← click_submit;
       if negb clicked then mret false
       else
         url ← current_url;
         if negb (contains "/login/" url) then mret true else mret false)
    (fun _ => mret false).
End Scraper.

(** The direct navigation reaches the document from history [h]. *)
Definition lands_on_document (d : driver) (document_url : string)
    (h : list call) : Prop :=
  on_get d h document_url = Ret ()
  ∧ ∃ url, on_current_url d (h ++ [Get document_url])%list = Ret url
           ∧ contains "proposals/view" url = true.

(** The calls by which [login] fills the two fields, and those by which it
    fills and submits the form. *)
Definition fill_calls (email password : string)
    (email_field password_field : elem) : list call :=
  [WaitPresence "Email"; Clear email_field; SendKeys email_field email;
   WaitPresence "Password"; Clear password_field;
   SendKeys password_field password].

Definition form_calls (email password : string) (email_field password_field
    login_button : elem) : list call :=
  (fill_calls email password email_field password_field
   ++ [FindElements submit_xpath; Click login_button])%list.

(** Calls that only navigate or read the URL. *)
Definition is_read_or_get (c : call) : Prop :=
  match c with
  | Get _ | CurrentUrl => True
  | _ => False
  end.

End Navigation.

(** ** Drivers used by the examples *)

Module NavFixtures.
Import Navigation.

(** A session that is already authenticated: every page is the document. *)
Definition driver_signed_in : driver :=
  {| on_get := fun _ _ => Ret ();
     on_current_url := fun _ =>
       Ret "https://betterproposals.io/2/proposals/view?id=2366358";
     on_wait_presence := fun _ _ => Exc "TimeoutException";
     on_clear := fun _ _ => Ret ();
     on_send_keys := fun _ _ _ => Ret ();
     on_find_elements := fun _ _ => Ret [];
     on_click := fun _ _ => Ret () |}.

(** A session that shows the login page until the form has been
    submitted, and the dashboard afterwards. *)
Definition clicked (h : list call) : bool :=
  existsb (fun c => match c with Click _ => true | _ => false end) h.

Definition driver_login_page : driver :=
  {| on_get := fun _ _ => Ret ();
     on_current_url := fun h =>
       if clicked h then Ret "https://betterproposals.io/2/dashboard"
       else Ret "https://betterproposals.io/2/login/";
     on_wait_presence := fun _ id => Ret (String.length id);
     on_clear := fun _ _ => Ret ();
     on_send_keys := fun _ _ _ => Ret ();
     on_find_elements := fun _ _ => Ret [7; 8];
     on_click := fun _ _ => Ret () |}.

(** The login page without a submit button. *)
Definition driver_no_button : driver :=
  {| on_get := fun _ _ => Ret ();
     on_current_url := fun _ => Ret "https://betterproposals.io/2/login/";
     on_wait_presence := fun _ id => Ret (String.length id);
     on_clear := fun _ _ => Ret ();
     on_send_keys := fun _ _ _ => Ret ();
     on_find_elements := fun _ _ => Ret [];
     on_click := fun _ _ => Ret () |}.

Definition document_url : string :=
  "https://betterproposals.io/2/proposals/view?id=2366358".
Definition login_url : string := "https://betterproposals.io/2/login/".

End NavFixtures.

(** ** Further definitions used to state properties *)

Module More.
Import PyStr Extraction.

(** The candidate a timeline block gives rise to: its first title decides. *)
Definition candidate_of (b : timeline_block) : option block :=
  match titles b with
  | title_text :: _ =>
      if contains marker title_text
      then Some {| html := outer_html b; text := title_text |}
      else None
  | [] => None
  end.

(** The markup of the blocks, one after the other. *)
Definition joined_markup (bs : list timeline_block) : string :=
  foldr (fun b acc => outer_html b ++ acc) "" bs.

(** [all_chars p s]: every character of [s] satisfies [p]. *)
Fixpoint all_chars (p : ascii → bool) (s : string) : bool :=
  match s with
  | "" => true
  | String c s' => p c && all_chars p s'
  end.

(** [blocks p o]: [o] cannot start inside a run of [p]-characters that is
    followed by a slash, because before any slash-free prefix of [o] is
    used up a character outside [p] is met. *)
Fixpoint blocks (p : ascii → bool) (o : string) : bool :=
  match o with
  | "" => false
  | String a o' => negb (Ascii.eqb a "/") && (negb (p a) || blocks p o')
  end.

(** No non-empty suffix of [pre], continued by [s], is accepted by [k]. *)
Fixpoint rejected_along (k : string → option string) (pre s : string) : bool :=
  match pre with
  | "" => true
  | String c pre' =>
      match k (pre ++ s) with
      | None => rejected_along k pre' s
      | Some _ => false
      end
  end.

(** The link Google Sheets gives for a shared sheet with identifier [id],
    and the address of its CSV export. *)
Definition share_url (id : string) : string :=
  "https://docs.google.com/spreadsheets/d/" ++ id ++ "/edit?usp=sharing".
Definition csv_url (id : string) : string :=
  "https://docs.google.com/spreadsheets/d/" ++ id ++ "/export?format=csv".

(** A page of a document that nobody has signed or sent yet. *)
Definition page_unsigned : page :=
  {| certificate_section := None; timeline_blocks := [] |}.

(** A timeline with a viewed event, a send event and an untitled block. *)
Definition page_timeline : page :=
  {| certificate_section := Some "<div>certificate</div>";
     timeline_blocks :=
       [{| outer_html := "<li>viewed</li>"; titles := ["Viewed by Bob"] |};
        {| outer_html := "<li>sent</li>"; titles := ["Sent by Alice"; "Sent by Eve"] |};
        {| outer_html := "<li>note</li>"; titles := [] |}] |}.

(** A result whose date the model service gave as a number. *)
Definition result_with_number : dict :=
  <["Sent by" := PyStr "Alice"]>
    (<["Signed date" := PyInt 2025]>
       (<["Signed by" := PyStr "Jane Doe"]> ∅)).

(** Model-service answers that are not JSON objects. *)
Definition chat_list (_ : request) : api_response :=
  ApiJson (PyList [PyStr "Jane Doe"]).

(** A model-service answer that leaves one key out and gives a number for
    another. *)
Definition chat_partial (_ : request) : api_response :=
  ApiJson (PyDict (<["Signed date" := PyInt 2025]>
                     (<["Signed by" := PyStr "Jane Doe"]> ∅))).

End More.

(** * Facts about the string primitives and the matcher *)

Section PatternFacts.
Import PyStr.

Lemma match_here_lit x p s :
  match_here (lit x ++ p)%list s = strip_prefix x s ≫= match_here p.
Proof.
  revert s. induction x as [|a x IH]; intros s; simpl; [done|].
  destruct s as [|b s]; [done|]. destruct (Ascii.eqb a b); [apply IH|done].
Qed.

Lemma lazy_any_ext k k' s :
  (∀ t, k t = k' t) → lazy_any k s = lazy_any k' s.
Proof.
  intros E. induction s as [|c s IH]; simpl; rewrite E; [done|].
  by rewrite IH.
Qed.

Lemma lazy_group_lit x s :
  lazy_group (match_here (lit x)) s = find_before x s.
Proof.
  assert (E : ∀ t, match_here (lit x) t = strip_prefix x t ≫= (λ _, Some "")).
  { intros t. rewrite <- (app_nil_r (lit x)). by rewrite match_here_lit. }
  induction s as [|c s IH]; simpl; unfold startswith; rewrite E.
  - by destruct (strip_prefix x "").
  - destruct (strip_prefix x (String c s)); simpl; [done|]. by rewrite IH.
Qed.

Lemma strip_prefix_length x s r :
  strip_prefix x s = Some r →
  String.length s = (String.length x + String.length r)%nat.
Proof.
  revert s. induction x as [|a x IH]; intros s; simpl.
  - by intros [= ->].
  - destruct s as [|b s]; [done|]. destruct (Ascii.eqb a b); [|done].
    intros H. simpl. by rewrite (IH _ H).
Qed.

Lemma strip_prefix_suffix x s r : strip_prefix x s = Some r → suffix r s.
Proof.
  revert s. induction x as [|a x IH]; intros s; simpl.
  - intros [= ->]. constructor.
  - destruct s as [|b s]; [done|]. destruct (Ascii.eqb a b); [|done].
    intros H. constructor. by apply IH.
Qed.

Lemma find_after_suffix x s r :
  find_after x s = Some r →
  suffix r s ∧ (String.length x + String.length r ≤ String.length s)%nat.
Proof.
  induction s as [|c s IH]; simpl.
  - destruct (strip_prefix x "") eqn:E; [|done]. intros [= ->].
    split; [by eapply strip_prefix_suffix|].
    apply strip_prefix_length in E. simpl in *. lia.
  - destruct (strip_prefix x (String c s)) eqn:E.
    + intros [= ->]. split; [by eapply strip_prefix_suffix|].
      apply strip_prefix_length in E. simpl in *. lia.
    + intros H. destruct (IH H) as [S L]. split; [by constructor|].
      simpl. lia.
Qed.

Lemma suffix_length u s : suffix u s → (String.length u ≤ String.length s)%nat.
Proof. induction 1; simpl; lia. Qed.

(** Of two suffixes of one string, the shorter is a suffix of the longer. *)
Lemma suffix_chain a b s :
  suffix b s → suffix a s → (String.length a ≤ String.length b)%nat →
  suffix a b.
Proof.
  induction 1 as [s|c s b Hb IH]; intros Ha L; [done|].
  inversion Ha as [|c' s' a' Ha']; subst.
  - apply suffix_length in Hb. simpl in L. lia.
  - by apply IH.
Qed.

Lemma fails_later_step (k : string → option string) :
  (∀ c t, k (String c t) = None → k t = None) → fails_later k.
Proof. intros H t u S. induction S; [done|]. intros E. eauto. Qed.

(** The occurrence found in the tail lies after the one at the head. *)
Lemma find_after_tail_suffix x c s r r' :
  strip_prefix x (String c s) = Some r → find_after x s = Some r' →
  suffix r' r.
Proof.
  intros E E'. destruct (find_after_suffix _ _ _ E') as [S' L'].
  apply (suffix_chain _ _ (String c s)).
  - by eapply strip_prefix_suffix.
  - by constructor.
  - apply strip_prefix_length in E. simpl in E. lia.
Qed.

(** A lazy scan for a literal followed by [k] stops at the first
    occurrence of the literal, provided [k] cannot recover later. *)
Lemma lazy_any_bind x k s :
  fails_later k →
  lazy_any (λ t, strip_prefix x t ≫= k) s = find_after x s ≫= k.
Proof.
  intros F. induction s as [|c s IH]; simpl.
  - by destruct (strip_prefix x "") as [r|]; simpl; [destruct (k r)|].
  - destruct (strip_prefix x (String c s)) as [r|] eqn:E; simpl; [|done].
    destruct (k r) eqn:K; [done|]. rewrite IH.
    destruct (find_after x s) as [r'|] eqn:E'; simpl; [|done].
    apply (F r); [|done]. by eapply find_after_tail_suffix.
Qed.

Lemma find_before_fails_later x : fails_later (find_before x).
Proof.
  apply fails_later_step. intros c t. simpl.
  destruct (startswith x (String c t)); [done|].
  by destruct (find_before x t).
Qed.

Lemma find_after_bind_fails_later x k :
  fails_later k → fails_later (λ t, find_after x t ≫= k).
Proof.
  intros F. apply fails_later_step. intros c t. simpl.
  destruct (strip_prefix x (String c t)) as [r|] eqn:E; simpl; [|done].
  intros K. destruct (find_after x t) as [r'|] eqn:E'; simpl; [|done].
  apply (F r); [|done]. by eapply find_after_tail_suffix.
Qed.

(** [re.search] on [X.*?O(.*?)C] without backtracking. *)
Lemma search_label_value x o c s :
  re_search (lit x ++ [TLazyAny] ++ lit o ++ [TGroupLazyAny] ++ lit c)%list s
  = find_after x s ≫= (λ t, find_after o t ≫= find_before c).
Proof.
  unfold re_search.
  rewrite (lazy_any_ext _ (λ t, strip_prefix x t ≫=
    (λ t, find_after o t ≫= find_before c))).
  { apply lazy_any_bind, find_after_bind_fails_later, find_before_fails_later. }
  intros t. rewrite match_here_lit.
  destruct (strip_prefix x t) as [r|]; [|done].
  change (lazy_any (match_here (lit o ++ [TGroupLazyAny] ++ lit c)%list) r
          = find_after o r ≫= find_before c).
  rewrite (lazy_any_ext _ (λ t, strip_prefix o t ≫= find_before c)).
  { apply lazy_any_bind, find_before_fails_later. }
  intros u. rewrite match_here_lit.
  destruct (strip_prefix o u) as [r'|]; [|done].
  apply lazy_group_lit.
Qed.

Lemma contains_find_after x s :
  contains x s = false → find_after x s = None.
Proof.
  induction s as [|c s IH]; simpl; unfold startswith.
  - by destruct (strip_prefix x "").
  - destruct (strip_prefix x (String c s)); simpl; [done|apply IH].
Qed.

End PatternFacts.

(** * The extraction tiers *)

Section ResultDictionary.
Import Extraction.

Lemma fields_dict_after a b c s :
  <["IP address":=PyStr c]>
    (<["Signed date":=PyStr b]>
       (<["Signed by":=PyStr a]>
          (<["Sent by":=PyStr s]>
             (<["IP address":=PyStr not_found]>
                (<["Signed date":=PyStr not_found]>
                   (<["Signed by":=PyStr not_found]> (∅ : dict)))))))
  = fields_dict a b c s.
Proof.
  apply map_eq. intros k. unfold fields_dict.
  destruct (decide (k = "Sent by")) as [->|]; [by simplify_map_eq|].
  destruct (decide (k = "IP address")) as [->|]; [by simplify_map_eq|].
  destruct (decide (k = "Signed date")) as [->|]; [by simplify_map_eq|].
  destruct (decide (k = "Signed by")) as [->|]; by simplify_map_eq.
Qed.

Lemma fields_dict_sent_by a b c s s' :
  <["Sent by" := PyStr s']> (fields_dict a b c s) = fields_dict a b c s'.
Proof. apply insert_insert_eq. Qed.

Lemma fields_dict_lookup_sent_by a b c s :
  fields_dict a b c s !! "Sent by" = Some (PyStr s).
Proof. apply lookup_insert_eq. Qed.

Lemma fields_dict_dom a b c s : dom (fields_dict a b c s) = result_keys.
Proof.
  unfold fields_dict, result_keys. rewrite !dom_insert_L, dom_empty_L.
  set_solver.
Qed.

Lemma fields_dict_strings a b c s k :
  k ∈ result_keys → ∃ v, fields_dict a b c s !! k = Some (PyStr v).
Proof.
  unfold result_keys, fields_dict. rewrite !elem_of_union, !elem_of_singleton.
  intros [[[->| ->]| ->]| ->]; eexists; by simplify_map_eq.
Qed.

End ResultDictionary.

Section ExtractionFacts.
Import PyStr Extraction.
Variable search : pattern → string → res (option string).

Lemma labelled_field_eq label key cert (d : dict) :
  d !! key = Some (PyStr not_found) →
  labelled_field search label key cert d
  = Ret (<[key := PyStr (field_outcome search label cert)]> d).
Proof.
  intros Hd. unfold labelled_field, field_outcome.
  destruct (contains label cert); [|by rewrite insert_id].
  destruct (search (value_pattern label) cert) as [[g|]|e]; simpl;
    try done; by rewrite insert_id.
Qed.

(** [manual_extract] always returns, and its result is made of the four
    per-field outcomes. *)
Lemma manual_extract_eq raw sent_by :
  manual_extract search raw sent_by
  = Ret (fields_dict
           (field_outcome search "Accepted and Signed by" (certificate_html raw))
           (field_outcome search "Accepted and Signed on" (certificate_html raw))
           (field_outcome search "IP Address from signature location"
              (certificate_html raw))
           (sent_by_outcome search raw sent_by)).
Proof.
  unfold manual_extract.
  rewrite labelled_field_eq by done. simpl.
  rewrite labelled_field_eq by done. simpl.
  rewrite labelled_field_eq by done. simpl.
  rewrite fields_dict_after.
  set (a := field_outcome _ "Accepted and Signed by" _).
  set (b := field_outcome _ "Accepted and Signed on" _).
  set (c := field_outcome _ "IP Address from signature location" _).
  unfold getitem, sent_by_outcome. rewrite fields_dict_lookup_sent_by. simpl.
  set (s1 := if String.eqb sent_by not_found
                && bool_decide (sent_by_blocks raw ≠ [])
             then default sent_by (first_sent_by (sent_by_blocks raw))
             else sent_by).
  assert (E : (if String.eqb sent_by not_found
                  && bool_decide (sent_by_blocks raw ≠ [])
     then match first_sent_by (sent_by_blocks raw) with
          | Some s => <["Sent by":=PyStr s]> (fields_dict a b c sent_by)
          | None => fields_dict a b c sent_by
          end
     else fields_dict a b c sent_by) = fields_dict a b c s1).
  { subst s1. destruct (_ && _); [|done].
    destruct (first_sent_by _); [apply fields_dict_sent_by|done]. }
  rewrite E. rewrite fields_dict_lookup_sent_by. simpl.
  destruct (String.eqb s1 not_found); [|done].
  destruct (search timeline_pattern (timeline_html raw)) as [[g|]|e]; simpl; done.
Qed.

Lemma sent_by_outcome_direct raw v :
  v ≠ not_found → sent_by_outcome search raw v = v.
Proof.
  intros Hv. unfold sent_by_outcome.
  apply String.eqb_neq in Hv. rewrite Hv. simpl. by rewrite Hv.
Qed.

Lemma manual_extract_keeps_sender raw v :
  v ≠ not_found →
  ∃ result, manual_extract search raw v = Ret result
            ∧ result !! "Sent by" = Some (PyStr v).
Proof.
  intros Hv. eexists. split; [apply manual_extract_eq|].
  rewrite fields_dict_lookup_sent_by. by rewrite sent_by_outcome_direct.
Qed.

Lemma direct_sent_by_first raw b rest :
  sent_by_blocks raw = b :: rest → contains marker (text b) = true →
  direct_sent_by raw = strip (replace marker "" (text b)).
Proof. intros E H. unfold direct_sent_by. rewrite E. simpl. by rewrite H. Qed.
End ExtractionFacts.

Section BlockCollection.
Import PyStr Extraction.

Lemma timeline_step_marked acc b :
  Forall (λ b, contains marker (text b) = true) acc.2 →
  Forall (λ b, contains marker (text b) = true) (timeline_step acc b).2.
Proof.
  destruct acc as [h sent]. simpl. intros H.
  destruct (titles b) as [|t ?]; [done|].
  destruct (contains marker t) eqn:E; [|done].
  apply Forall_app. split; [done|]. by constructor.
Qed.

(** What [extract_certificate_info] returns has only marked candidates. *)
Lemma extract_candidates_marked p raw :
  extract_certificate_info p = Some raw → candidates_marked raw.
Proof.
  destruct p as [p|e]; [|done]. unfold extract_certificate_info, candidates_marked.
  simpl.
  assert (G : ∀ bs acc, Forall (λ b, contains marker (text b) = true) acc.2 →
    Forall (λ b, contains marker (text b) = true) (fold_left timeline_step bs acc).2).
  { induction bs as [|b bs IH]; intros acc H; simpl; [done|].
    apply IH. by apply timeline_step_marked. }
  specialize (G (timeline_blocks p) ("", []) (Forall_nil_2 _)).
  destruct (fold_left timeline_step (timeline_blocks p) ("", [])) as [h sent].
  intros [= <-]. exact G.
Qed.
End BlockCollection.

(** * Claims about the extraction tiers *)

Section ExtractionClaims.
Import PyStr Extraction Fixtures.

(** On the certificate patterns the matcher and the specification's
    reading agree, and the [in] guard of [manual_extract] changes
    nothing. *)
Lemma field_outcome_spec label cert :
  field_outcome py_search label cert = spec_field label cert.
Proof.
  unfold field_outcome, spec_field, py_search, value_pattern.
  rewrite search_label_value. fold (labelled_value label cert).
  destruct (contains label cert) eqn:E; [done|].
  unfold labelled_value. by rewrite (contains_find_after _ _ E).
Qed.

(** C1, as amended.  When the first candidate's title contains the marker,
    the "Sent by" field returned by [parse_with_openai] is that title with
    the marker removed and stripped: on every path when that value is not
    the sentinel "Not found", and on the path where the model service
    answers with a JSON object in any case.  This holds however
    [re.search] behaves. *)
Theorem C1_sent_by_is_first_candidate
    (search : pattern → string → res (option string))
    (api_key : option string) (chat : request → api_response)
    (raw : raw_extraction) (b : block) (rest : list block) :
  sent_by_blocks raw = b :: rest →
  contains marker (text b) = true →
  strip (replace marker "" (text b)) ≠ not_found
  ∨ (key_set api_key = true
     ∧ ∃ d, chat (certificate_html raw, strip (replace marker "" (text b)))
            = ApiJson (PyDict d)) →
  ∃ result,
    (parse_with_openai search api_key chat raw).2 = Ret result
    ∧ result !! "Sent by" = Some (PyStr (strip (replace marker "" (text b)))).
Proof.
  intros Hb Hm Hcase. unfold parse_with_openai.
  rewrite (direct_sent_by_first raw b rest Hb Hm).
  set (v := strip (replace marker "" (text b))) in *.
  destruct Hcase as [Hv | (Hk & d & Hchat)].
  - destruct (manual_extract_keeps_sender search raw v Hv) as (r & Er & Lr).
    destruct (key_set api_key); simpl.
    + destruct (chat (certificate_html raw, v)) as [e| |parsed]; simpl.
      * rewrite Er. eauto.
      * rewrite Er. simpl. eauto.
      * destruct parsed; simpl; try (rewrite Er; eauto).
        eexists. split; [done|]. apply lookup_insert_eq.
    + rewrite Er. simpl. eauto.
  - rewrite Hk. simpl. rewrite Hchat. simpl.
    eexists. split; [done|]. apply lookup_insert_eq.
Qed.

Lemma C1_sent_by_is_first_candidate_witness :
  ∃ result,
    (parse_with_openai py_search None chat_down raw_jane).2 = Ret result
    ∧ result !! "Sent by" = Some (PyStr "Alice").
Proof.
  apply (C1_sent_by_is_first_candidate py_search None chat_down raw_jane
           {| html := "<li>" ++ title_open ++ "Sent by Alice</div></li>";
              text := "Sent by Alice" |} []).
  - reflexivity.
  - reflexivity.
  - left. vm_compute. discriminate.
Defined.

(** C1 fails as stated: a raw extraction read from a page, with one
    marked candidate, for which the fallback tier returns the capture of
    the timeline pattern instead of the candidate's stripped title. *)
Lemma C1_counterexample :
  extract_certificate_info (Ret page_sentinel) = Some raw_sentinel
  ∧ candidates_marked raw_sentinel
  ∧ ∃ b rest result,
      sent_by_blocks raw_sentinel = b :: rest
      ∧ (parse_with_openai py_search None chat_down raw_sentinel).2 = Ret result
      ∧ strip (replace marker "" (text b)) = "Not found"
      ∧ result !! "Sent by" = Some (PyStr "<b>Not found</b>")
      ∧ result !! "Sent by" ≠ Some (PyStr (strip (replace marker "" (text b)))).
Proof.
  split; [reflexivity|]. split.
  { repeat constructor. }
  eexists _, _, _. split; [reflexivity|]. split; [reflexivity|].
  split; [reflexivity|]. split; [vm_compute; reflexivity|].
  vm_compute. discriminate.
Qed.

(** C2, as amended.  For every certificate fragment each of the three
    certificate fields is the trimmed content of the first
    certificate-value element after the first occurrence of its label,
    and "Not found" when there is none.  Hence a fragment in which the
    first such element after the label "Accepted and Signed by" holds
    Jane Doe yields Signed by = "Jane Doe", and a fragment without the
    IP label yields IP address = "Not found". *)
Theorem C2_certificate_fields (raw : raw_extraction) (sent_by : string) :
  ∃ d,
    manual_extract py_search raw sent_by = Ret d
    ∧ (∀ label key, (label, key) ∈ certificate_fields →
         d !! key = Some (PyStr (spec_field label (certificate_html raw))))
    ∧ (∀ rest post,
         find_after "Accepted and Signed by" (certificate_html raw) = Some rest →
         find_after value_open rest = Some ("Jane Doe</div>" ++ post) →
         d !! "Signed by" = Some (PyStr "Jane Doe"))
    ∧ (contains "IP Address from signature location" (certificate_html raw)
       = false →
       d !! "IP address" = Some (PyStr not_found)).
Proof.
  eexists. split; [apply manual_extract_eq|].
  rewrite !field_outcome_spec.
  assert (Hall : ∀ label key, (label, key) ∈ certificate_fields →
    fields_dict (spec_field "Accepted and Signed by" (certificate_html raw))
      (spec_field "Accepted and Signed on" (certificate_html raw))
      (spec_field "IP Address from signature location" (certificate_html raw))
      (sent_by_outcome py_search raw sent_by) !! key
    = Some (PyStr (spec_field label (certificate_html raw)))).
  { intros label key Hin. unfold certificate_fields, fields_dict in *.
    repeat (apply elem_of_cons in Hin as [[= -> ->]|Hin]; [by simplify_map_eq|]).
    by apply elem_of_nil in Hin. }
  split; [exact Hall|]. split.
  - intros rest post H1 H2.
    rewrite (Hall "Accepted and Signed by" "Signed by") by (by left).
    unfold spec_field, labelled_value. rewrite H1. simpl. rewrite H2. reflexivity.
  - intros H.
    rewrite (Hall "IP Address from signature location" "IP address")
      by (by do 2 right; left).
    unfold spec_field, labelled_value. by rewrite (contains_find_after _ _ H).
Qed.

Lemma C2_certificate_fields_witness :
  ∃ d,
    manual_extract py_search raw_jane not_found = Ret d
    ∧ d !! "Signed by" = Some (PyStr "Jane Doe")
    ∧ d !! "Signed date" = Some (PyStr "08 May 2025")
    ∧ d !! "IP address" = Some (PyStr "Not found").
Proof.
  destruct (C2_certificate_fields raw_jane not_found) as (d & E & Hall & Hjane & Hip).
  exists d. split; [exact E|]. split; [|split].
  - apply (Hjane ("</p>" ++ value_open ++ "Jane Doe</div>"
                  ++ "<p>Accepted and Signed on</p>" ++ value_open
                  ++ " 08 May 2025 </div>")
                 ("<p>Accepted and Signed on</p>" ++ value_open
                  ++ " 08 May 2025 </div>")); reflexivity.
  - rewrite (Hall "Accepted and Signed on" "Signed date"); [reflexivity|].
    right. left.
  - apply Hip. reflexivity.
Defined.

(** C2 fails as stated: in this fragment the label is followed
    eventually by the element holding Jane Doe, and Signed by is John Roe,
    the content of the first value element after the label. *)
Lemma C2_counterexample :
  followed_eventually "Accepted and Signed by"
    (value_open ++ "Jane Doe</div>") (certificate_html raw_two_values)
  ∧ ∃ d,
      manual_extract py_search raw_two_values not_found = Ret d
      ∧ d !! "Signed by" = Some (PyStr "John Roe")
      ∧ d !! "Signed by" ≠ Some (PyStr "Jane Doe").
Proof.
  split.
  - exists "<p>", ("</p>" ++ value_open ++ "John Roe</div><p>Witness</p>"), "".
    reflexivity.
  - eexists. split; [reflexivity|]. split; [vm_compute; reflexivity|].
    vm_compute. discriminate.
Qed.

(** C5.  Without an API key [parse_with_openai] sends no request and
    returns what [manual_extract] returns: a dictionary with exactly the
    four keys, each holding a string. *)
Theorem C5_no_key_no_call
    (search : pattern → string → res (option string))
    (api_key : option string) (chat : request → api_response)
    (raw : raw_extraction) :
  key_set api_key = false →
  (parse_with_openai search api_key chat raw).1 = []
  ∧ (parse_with_openai search api_key chat raw).2
    = manual_extract search raw (direct_sent_by raw)
  ∧ ∃ d,
      (parse_with_openai search api_key chat raw).2 = Ret d
      ∧ dom d = result_keys
      ∧ ∀ k, k ∈ result_keys → ∃ s, d !! k = Some (PyStr s).
Proof.
  intros Hk. unfold parse_with_openai. rewrite Hk. simpl.
  rewrite manual_extract_eq. simpl. split; [done|]. split; [done|].
  eexists. split; [done|]. split; [apply fields_dict_dom|].
  apply fields_dict_strings.
Qed.

Lemma C5_no_key_no_call_witness :
  (parse_with_openai py_search (Some "") chat_object raw_jane).1 = []
  ∧ ∃ d,
      (parse_with_openai py_search (Some "") chat_object raw_jane).2 = Ret d
      ∧ dom d = result_keys.
Proof.
  destruct (C5_no_key_no_call py_search (Some "") chat_object raw_jane)
    as (H1 & _ & d & H2 & H3 & _); [reflexivity|].
  split; [exact H1|]. exists d. split; [exact H2 | exact H3].
Defined.

(** C8.  Whatever [re.search] does, raising included, [manual_extract]
    returns a dictionary with exactly the four keys, each holding a
    string; and the value of each of the four fields is decided by the
    search for its own pattern alone: another [re.search] that behaves the
    same on that one pattern, and anyhow on the others (raising, say),
    gives the same value.  This holds for the three certificate fields,
    each with the pattern of its label, and for "Sent by" with the
    timeline pattern. *)
Theorem C8_manual_extract_total
    (search : pattern → string → res (option string))
    (raw : raw_extraction) (sent_by : string) :
  ∃ d,
    manual_extract search raw sent_by = Ret d
    ∧ dom d = result_keys
    ∧ (∀ k, k ∈ result_keys → ∃ s, d !! k = Some (PyStr s))
    ∧ (∀ search' label key,
         (label, key) ∈ certificate_fields →
         search' (value_pattern label) (certificate_html raw)
         = search (value_pattern label) (certificate_html raw) →
         ∃ d', manual_extract search' raw sent_by = Ret d'
               ∧ d' !! key = d !! key)
    ∧ (∀ search',
         search' timeline_pattern (timeline_html raw)
         = search timeline_pattern (timeline_html raw) →
         ∃ d', manual_extract search' raw sent_by = Ret d'
               ∧ d' !! "Sent by" = d !! "Sent by").
Proof.
  eexists. split; [apply manual_extract_eq|].
  split; [apply fields_dict_dom|]. split; [apply fields_dict_strings|].
  split.
  - intros search' label key Hin Hsame.
    eexists. split; [apply manual_extract_eq|].
    unfold certificate_fields, fields_dict, field_outcome in *.
    repeat (apply elem_of_cons in Hin as [[= -> ->]|Hin];
            [simplify_map_eq; by rewrite Hsame|]).
    by apply elem_of_nil in Hin.
  - intros search' Hsame.
    eexists. split; [apply manual_extract_eq|].
    rewrite !fields_dict_lookup_sent_by. unfold sent_by_outcome.
    by rewrite Hsame.
Qed.

Lemma C8_manual_extract_total_witness :
  ∃ d d',
    manual_extract py_search raw_full_alice not_found = Ret d
    ∧ dom d = result_keys
    ∧ manual_extract search_failing_on_ip raw_full_alice not_found = Ret d'
    ∧ d' !! "Signed by" = d !! "Signed by"
    ∧ d' !! "Signed date" = d !! "Signed date"
    ∧ d' !! "Sent by" = d !! "Sent by".
Proof.
  destruct (C8_manual_extract_total py_search raw_full_alice not_found)
    as (d & E & Hdom & _ & Hiso & Hsender).
  destruct (Hiso search_failing_on_ip "Accepted and Signed by" "Signed by")
    as (d1 & E1 & Hsame1); [left|reflexivity|].
  destruct (Hiso search_failing_on_ip "Accepted and Signed on" "Signed date")
    as (d2 & E2 & Hsame2); [right; left|reflexivity|].
  destruct (Hsender search_failing_on_ip) as (d3 & E3 & Hsame3); [reflexivity|].
  rewrite E1 in E2, E3. injection E2 as <-. injection E3 as <-.
  exists d, d1. repeat split; assumption.
Defined.
End ExtractionClaims.

(** * Claims about one browser session *)

Section SessionClaims.
Import PyStr Extraction Session Fixtures.

Lemma user_menu_found_iff v :
  user_menu_found v = true ↔ ∃ n, find_user_menu v = Ret (S n).
Proof.
  unfold user_menu_found. destruct (find_user_menu v) as [[|n]|e]; split;
    try done; try (intros [? [=]]); eauto.
Qed.

(** C6.  [check_authentication_status] follows the ordered policy: on a
    document or dashboard URL it answers True and issues no DOM probe;
    otherwise on a login URL it answers False when the login form is
    found, and when the form is absent it answers True exactly when a
    user-menu element is found; on any other URL it answers True exactly
    when a user-menu element is found. *)
Theorem C6_authentication_policy (v : dom_view) :
  (contains "proposals/view" (current_url v) = true
   ∨ contains "dashboard" (current_url v) = true →
   check_authentication_status v = ([], Ret true))
  ∧ (contains "proposals/view" (current_url v) = false →
     contains "dashboard" (current_url v) = false →
     contains "/login/" (current_url v) = true →
     (find_form_login v = Found →
      (check_authentication_status v).2 = Ret false)
     ∧ (find_form_login v = NoSuchElement →
        (check_authentication_status v).2 = Ret (user_menu_found v)))
  ∧ (contains "proposals/view" (current_url v) = false →
     contains "dashboard" (current_url v) = false →
     contains "/login/" (current_url v) = false →
     (check_authentication_status v).2 = Ret (user_menu_found v))
  ∧ (user_menu_found v = true ↔ ∃ n, find_user_menu v = Ret (S n)).
Proof.
  unfold check_authentication_status. split; [|split; [|split]].
  - intros [-> | ->]; [done|]. by rewrite orb_true_r.
  - intros -> -> ->. simpl. split; intros ->; [done|].
    by destruct (user_menu_found v).
  - intros -> -> ->. simpl. by destruct (user_menu_found v).
  - apply user_menu_found_iff.
Qed.

Lemma C6_authentication_policy_witness :
  check_authentication_status
    {| current_url := "https://betterproposals.io/2/proposals/view?id=2366358";
       find_form_login := FindError "unreachable";
       find_user_menu := Exc "unreachable" |} = ([], Ret true)
  ∧ (check_authentication_status view_login_form).2 = Ret false
  ∧ (check_authentication_status view_user_menu).2 = Ret true.
Proof.
  split; [|split].
  - apply (C6_authentication_policy
             {| current_url := "https://betterproposals.io/2/proposals/view?id=2366358";
                find_form_login := FindError "unreachable";
                find_user_menu := Exc "unreachable" |}).
    left. reflexivity.
  - destruct (C6_authentication_policy view_login_form) as (_ & H & _ & _).
    destruct H as [H _]; [reflexivity..|]. apply H. reflexivity.
  - destruct (C6_authentication_policy view_user_menu) as (_ & _ & H & _).
    apply H; reflexivity.
Defined.

(** [cleanup] never raises, and calls [quit] exactly when a driver is
    set. *)
Lemma cleanup_returns w s :
  cleanup w s
  = ({| driver := driver s;
        events := (events s ++ if driver s then [QuitCalled] else [])%list |},
     Ret ()).
Proof.
  unfold cleanup, try_M, driver_quit. destruct s as [[] ev]; simpl.
  - by destruct (quit w) as [[]|e].
  - by rewrite app_nil_r.
Qed.

Lemma parse_with_openai_returns search api_key chat raw :
  ∃ d, (parse_with_openai search api_key chat raw).2 = Ret d.
Proof.
  unfold parse_with_openai. destruct (key_set api_key); simpl.
  - destruct (chat _) as [e| |parsed]; simpl; rewrite ?manual_extract_eq;
      simpl; eauto.
    destruct parsed; simpl; rewrite ?manual_extract_eq; simpl; eauto.
  - rewrite manual_extract_eq. simpl. eauto.
Qed.

Lemma extract_and_parse_quits w ev :
  ∃ r, extract_and_parse w {| driver := true; events := ev |}
       = ({| driver := true; events := (ev ++ [QuitCalled])%list |}, Ret r).
Proof.
  unfold extract_and_parse.
  destruct (extract_certificate_info (page_read w)) as [raw|].
  - destruct (parse_with_openai_returns py_search (api_key w) (chat w) raw)
      as [d Ed].
    unfold mbind, M_bind, lift. rewrite Ed.
    destruct (bool_decide (d = ∅)); rewrite cleanup_returns; simpl; eauto.
  - unfold mbind, M_bind. rewrite cleanup_returns. simpl. eauto.
Qed.

(** Once [setup_driver] has succeeded, every way out of [run] goes
    through [cleanup]: [quit] is called once, last, and [run] returns
    whether or not [quit] raises. *)
Lemma run_quits_after_setup w :
  chrome w = Ret () → maximize_window w = Ret () →
  ∃ r, run w fresh
       = ({| driver := true; events := [Launched; QuitCalled] |}, Ret r).
Proof.
  intros Hc Hm.
  unfold run, try_M, setup_driver, try_M, start_chrome, mbind, M_bind, lift.
  simpl. rewrite Hc, Hm. simpl.
  destruct (navigate_directly_to_document w) as [[]|e]; simpl.
  - destruct (extract_and_parse_quits w [Launched]) as [r ->]. simpl. eauto.
  - destruct (login w) as [[]|e]; simpl.
    + destruct (navigate_to_document w) as [[]|e]; simpl.
      * destruct (extract_and_parse_quits w [Launched]) as [r ->]. simpl. eauto.
      * rewrite cleanup_returns. simpl. eauto.
      * rewrite cleanup_returns. simpl. eauto.
    + rewrite cleanup_returns. simpl. eauto.
    + rewrite cleanup_returns. simpl. eauto.
  - rewrite cleanup_returns. simpl. eauto.
Qed.

(** When the browser cannot be started there is nothing to tear down. *)
Lemma run_without_browser w e :
  chrome w = Exc e → run w fresh = (fresh, Ret None).
Proof.
  intros Hc.
  unfold run, try_M, setup_driver, try_M, start_chrome, mbind, M_bind, lift.
  simpl. by rewrite Hc.
Qed.

(** The exit that skips [cleanup]: the browser has started and
    [maximize_window] raises. *)
Lemma run_skips_cleanup w e :
  chrome w = Ret () → maximize_window w = Exc e →
  run w fresh = ({| driver := true; events := [Launched] |}, Ret None).
Proof.
  intros Hc Hm.
  unfold run, try_M, setup_driver, try_M, start_chrome, mbind, M_bind, lift.
  simpl. by rewrite Hc, Hm.
Qed.

(** [run] never raises. *)
Lemma run_returns w : ∃ s r, run w fresh = (s, Ret r).
Proof.
  destruct (chrome w) as [[]|e] eqn:Hc.
  - destruct (maximize_window w) as [[]|e] eqn:Hm.
    + destruct (run_quits_after_setup w Hc Hm) as [r ->]. eauto.
    + rewrite (run_skips_cleanup w e Hc Hm). eauto.
  - rewrite (run_without_browser w e Hc). eauto.
Qed.

(** C7 fails on the code.  With a browser that starts and whose window
    cannot be maximised, [run] returns None while the driver is still
    set and [quit] was never called; on the same script with a working
    [maximize_window] the browser is quit before [run] returns. *)
Theorem C7_setup_failure_leaves_browser_running :
  run script_maximize_fails fresh
  = ({| driver := true; events := [Launched] |}, Ret None)
  ∧ (QuitCalled ∉ events ((run script_maximize_fails fresh).1))
  ∧ events ((run script_signed fresh).1) = [Launched; QuitCalled].
Proof.
  split; [reflexivity|]. split.
  - change (QuitCalled ∉ [Launched]). intros H.
    apply list_elem_of_singleton in H. discriminate.
  - destruct (run_quits_after_setup script_signed) as [r ->]; reflexivity.
Qed.
End SessionClaims.

(** * Claims about the batch *)

Section TableFacts.
Import Extraction Batch.

Lemma extracted_columns_elem k :
  k ∈ extracted_columns ↔
  k = "Extracted Signed by" ∨ k = "Extracted Signed date"
  ∨ k = "Extracted IP address" ∨ k = "Extracted Sent by".
Proof.
  unfold extracted_columns.
  rewrite !elem_of_cons, elem_of_nil. tauto.
Qed.

Lemma set_column_fresh c v df :
  c ∉ columns df → columns (set_column c v df) = (columns df ++ [c])%list.
Proof. intros H. unfold set_column. simpl. by rewrite bool_decide_eq_false_2. Qed.

Lemma fill_row_other a b c d r k :
  k ∉ extracted_columns → fill_row a b c d r !! k = r !! k.
Proof.
  intros Hk. unfold fill_row.
  rewrite !lookup_insert_ne; [done|..];
    intros <-; apply Hk, extracted_columns_elem; tauto.
Qed.

Lemma fill_values_other v r k :
  k ∉ extracted_columns → fill_values v r !! k = r !! k.
Proof. destruct v as [[[a b] c] d]. apply fill_row_other. Qed.

Lemma blank_row_extracted r k :
  k ∈ extracted_columns → blank_row r !! k = Some (PyStr "").
Proof.
  rewrite extracted_columns_elem. unfold blank_row, fill_row.
  intros [->|[->|[->| ->]]]; by simplify_map_eq.
Qed.

(** A cell written before the four assignments is overwritten by them. *)
Lemma fill_row_insert a b c d k v (r : dict) :
  k ∈ extracted_columns →
  fill_row a b c d (<[k := v]> r) = fill_row a b c d r.
Proof.
  intros Hk%extracted_columns_elem. apply map_eq. intros j. unfold fill_row.
  destruct (decide (j = "Extracted Sent by")) as [->|];
    [by rewrite !lookup_insert_eq|].
  destruct (decide (j = "Extracted IP address")) as [->|];
    [by simplify_map_eq|].
  destruct (decide (j = "Extracted Signed date")) as [->|];
    [by simplify_map_eq|].
  destruct (decide (j = "Extracted Signed by")) as [->|];
    [by simplify_map_eq|].
  destruct Hk as [->|[->|[->| ->]]]; by simplify_map_eq.
Qed.

End TableFacts.

Section BatchFacts.
Import PyStr Extraction Batch.
Variable read_csv : string → res DataFrame.
Variable to_csv : string → DataFrame → res unit.
Variable scraper_run : nat → pyval → res (option dict).
Variable at_store : pyval → res pyval.

(** The frame with the four cells of row [i] filled. *)
Lemma put_cells i a b c d acc :
  put_cell i "Extracted Sent by" d
    (put_cell i "Extracted IP address" c
       (put_cell i "Extracted Signed date" b
          (put_cell i "Extracted Signed by" a acc)))
  = {| columns := columns acc;
       rows := alter (fill_row a b c d) i (rows acc) |}.
Proof.
  unfold put_cell. simpl. by rewrite !list_alter_alter_eq.
Qed.

(** The four assignments: either every value is kept and the four cells
    are filled, or one is refused, and then whatever is assigned to the
    four cells afterwards hides what was written before the exception. *)
Lemma set_extracted_outcome i a b c d acc :
  match
    (a' ← cell_value at_store a; b' ← cell_value at_store b;
     c' ← cell_value at_store c; d' ← cell_value at_store d;
     mret (a', b', c', d'))
  with
  | Ret (a', b', c', d') =>
      set_extracted at_store i a b c d acc
      = ({| columns := columns acc;
            rows := alter (fill_row a' b' c' d') i (rows acc) |}, Ret ())
  | Exc e =>
      ∃ acc', set_extracted at_store i a b c d acc = (acc', Exc e)
              ∧ columns acc' = columns acc
              ∧ ∀ x y z w,
                  alter (fill_row x y z w) i (rows acc')
                  = alter (fill_row x y z w) i (rows acc)
  end.
Proof.
  unfold set_extracted, set_at, mbind, W_bind.
  destruct (cell_value at_store a) as [a'|e]; simpl; [|by eexists].
  destruct (cell_value at_store b) as [b'|e]; simpl.
  2:{ eexists. split; [done|]. split; [done|]. intros. simpl.
      rewrite list_alter_alter_eq. apply list_alter_ext; [|done].
      intros r _. simpl. apply fill_row_insert. repeat constructor. }
  destruct (cell_value at_store c) as [c'|e]; simpl.
  2:{ eexists. split; [done|]. split; [done|]. intros. simpl.
      rewrite !list_alter_alter_eq. apply list_alter_ext; [|done].
      intros r _. simpl.
      rewrite !fill_row_insert; [done|repeat constructor..]. }
  destruct (cell_value at_store d) as [d'|e]; simpl.
  2:{ eexists. split; [done|]. split; [done|]. intros. simpl.
      rewrite !list_alter_alter_eq. apply list_alter_ext; [|done].
      intros r _. simpl.
      rewrite !fill_row_insert; [done|repeat constructor..]. }
  by rewrite put_cells.
Qed.

Lemma set_extracted_strings i a b c d acc :
  set_extracted at_store i (PyStr a) (PyStr b) (PyStr c) (PyStr d) acc
  = ({| columns := columns acc;
        rows := alter (fill_row (PyStr a) (PyStr b) (PyStr c) (PyStr d)) i
                  (rows acc) |}, Ret ()).
Proof. apply (set_extracted_outcome i (PyStr a) (PyStr b) (PyStr c) (PyStr d)). Qed.

(** The handler of the loop body, run on a frame in which some of the
    four cells of the row were already written. *)
Lemma handler_outcome i e acc acc' :
  columns acc' = columns acc →
  (∀ x y z w,
     alter (fill_row x y z w) i (rows acc')
     = alter (fill_row x y z w) i (rows acc)) →
  set_extracted at_store i (PyStr ("Error: " ++ e)) (PyStr "Error")
    (PyStr "Error") (PyStr "Error") acc'
  = ({| columns := columns acc;
        rows := alter (fill_row (PyStr ("Error: " ++ e)) (PyStr "Error")
                         (PyStr "Error") (PyStr "Error")) i (rows acc) |},
     Ret ()).
Proof. intros Hc Hr. by rewrite set_extracted_strings, Hc, Hr. Qed.

(** The loop body never raises, and it leaves the four values of its row
    in the frame, and nothing else. *)
Lemma process_row_body_eq df i acc :
  process_row_body scraper_run at_store df i acc
  = (let '(a, b, c, d) := extracted_values scraper_run at_store df i in
     {| columns := columns acc; rows := alter (fill_row a b c d) i (rows acc) |},
     Ret ()).
Proof.
  unfold process_row_body, extracted_values, try_W, lift_W, mbind, W_bind.
  destruct (iloc_get df i "Company") as [company|e]; simpl;
    [|by apply handler_outcome].
  destruct (iloc_get df i "Document type") as [url|e]; simpl;
    [|by apply handler_outcome].
  destruct (scraper_run i url) as [result|e]; simpl;
    [|by apply handler_outcome].
  destruct (truthy result); simpl; [|by rewrite put_cells].
  pose proof (set_extracted_outcome i
                (get_or_not_found (default ∅ result) "Signed by")
                (get_or_not_found (default ∅ result) "Signed date")
                (get_or_not_found (default ∅ result) "IP address")
                (get_or_not_found (default ∅ result) "Sent by") acc) as H.
  unfold mbind, res_bind in H |- *.
  destruct (cell_value at_store _) as [a'|e]; simpl in H |- *;
    [|destruct H as (acc' & -> & Hc & Hr); by apply handler_outcome].
  destruct (cell_value at_store _) as [b'|e]; simpl in H |- *;
    [|destruct H as (acc' & -> & Hc & Hr); by apply handler_outcome].
  destruct (cell_value at_store _) as [c'|e]; simpl in H |- *;
    [|destruct H as (acc' & -> & Hc & Hr); by apply handler_outcome].
  destruct (cell_value at_store _) as [d'|e]; simpl in H |- *;
    [|destruct H as (acc' & -> & Hc & Hr); by apply handler_outcome].
  by rewrite H.
Qed.

Lemma process_row_eq df i acc :
  process_row scraper_run at_store df i acc
  = let '(a, b, c, d) := extracted_values scraper_run at_store df i in
    {| columns := columns acc; rows := alter (fill_row a b c d) i (rows acc) |}.
Proof. unfold process_row. by rewrite process_row_body_eq. Qed.

Lemma process_row_rows df i acc :
  rows (process_row scraper_run at_store df i acc)
  = alter (fill_values (extracted_values scraper_run at_store df i)) i (rows acc).
Proof.
  rewrite process_row_eq. unfold fill_values.
  by destruct (extracted_values scraper_run at_store df i) as [[[a b] c] d].
Qed.

Lemma process_row_columns df i acc :
  columns (process_row scraper_run at_store df i acc) = columns acc.
Proof.
  rewrite process_row_eq.
  by destruct (extracted_values scraper_run at_store df i) as [[[a b] c] d].
Qed.

Lemma loop_columns df l acc :
  columns (fold_left (λ acc i, process_row scraper_run at_store df i acc) l acc)
  = columns acc.
Proof.
  revert acc. induction l as [|i l IH]; intros acc; simpl; [done|].
  by rewrite IH, process_row_columns.
Qed.

(** Row [j] after the loop over [a, a+1, ..., a+n-1]. *)
Lemma loop_rows df n a acc j :
  rows (fold_left (λ acc i, process_row scraper_run at_store df i acc) (seq a n) acc) !! j
  = if bool_decide (a ≤ j < a + n)%nat
    then fill_values (extracted_values scraper_run at_store df j) <$> rows acc !! j
    else rows acc !! j.
Proof.
  revert a acc. induction n as [|n IH]; intros a acc; simpl.
  - rewrite bool_decide_eq_false_2; [done|lia].
  - rewrite IH, process_row_rows.
    destruct (decide (j = a)) as [->|Hne].
    + rewrite bool_decide_eq_false_2 by lia.
      rewrite bool_decide_eq_true_2 by lia. apply list_lookup_alter_eq.
    + rewrite list_lookup_alter_ne by done.
      destruct (decide (a ≤ j < a + S n)%nat).
      * rewrite !bool_decide_eq_true_2 by lia. done.
      * rewrite !bool_decide_eq_false_2 by lia. done.
Qed.

Lemma process_table_rows df max_urls j :
  rows (process_table scraper_run at_store df max_urls) !! j
  = (if bool_decide (j < urls_to_process max_urls df)%nat
     then fill_values (extracted_values scraper_run at_store df j) ∘ blank_row
     else blank_row) <$> rows df !! j.
Proof.
  unfold process_table. rewrite loop_rows. simpl.
  rewrite <- !list_fmap_compose, list_lookup_fmap.
  destruct (bool_decide (j < urls_to_process max_urls df)%nat) eqn:E.
  - apply bool_decide_eq_true in E. rewrite bool_decide_eq_true_2 by lia.
    by destruct (rows df !! j).
  - apply bool_decide_eq_false in E. rewrite bool_decide_eq_false_2 by lia.
    done.
Qed.

Lemma loop_length df l acc :
  length (rows (fold_left (λ acc i, process_row scraper_run at_store df i acc) l acc))
  = length (rows acc).
Proof.
  revert acc. induction l as [|i l IH]; intros acc; simpl; [done|].
  rewrite IH, process_row_rows. apply length_alter.
Qed.

Lemma process_table_length df max_urls :
  length (rows (process_table scraper_run at_store df max_urls)) = length (rows df).
Proof.
  unfold process_table. rewrite loop_length. simpl. by rewrite !length_fmap.
Qed.

Lemma process_table_columns df max_urls :
  fresh_columns df →
  columns (process_table scraper_run at_store df max_urls)
  = (columns df ++ extracted_columns)%list.
Proof.
  intros Hf. unfold process_table. rewrite loop_columns.
  assert (H1 : "Extracted Signed by" ∉ columns df)
    by (apply Hf, extracted_columns_elem; tauto).
  assert (H2 : "Extracted Signed date" ∉ columns df)
    by (apply Hf, extracted_columns_elem; tauto).
  assert (H3 : "Extracted IP address" ∉ columns df)
    by (apply Hf, extracted_columns_elem; tauto).
  assert (H4 : "Extracted Sent by" ∉ columns df)
    by (apply Hf, extracted_columns_elem; tauto).
  pose proof (set_column_fresh "Extracted Signed by" (PyStr "") df H1) as E1.
  rewrite set_column_fresh; rewrite set_column_fresh; rewrite ?set_column_fresh;
    rewrite ?E1; try done;
    try (intros H;
         repeat (apply elem_of_app in H as [H|H];
                 [|apply list_elem_of_singleton in H; discriminate]);
         done).
  by rewrite <- !app_assoc.
Qed.

(** With fresh result columns the loop leaves every original cell as it
    was. *)
Lemma process_table_augments df max_urls :
  fresh_columns df → augments df (process_table scraper_run at_store df max_urls).
Proof.
  intros Hf. split; [apply process_table_length|].
  split; [by apply process_table_columns|].
  intros i r Hr. rewrite process_table_rows, Hr. simpl.
  eexists. split; [done|]. intros k Hk.
  assert (k ∉ extracted_columns) by (intros ?; by eapply Hf).
  destruct (bool_decide _); simpl.
  - rewrite fill_values_other by done. by apply fill_row_other.
  - by apply fill_row_other.
Qed.

(** The readers never raise, so the table is always loaded. *)
Lemma read_google_sheet_returns sheet_url :
  ∃ o, read_google_sheet read_csv sheet_url = Ret o.
Proof.
  unfold read_google_sheet. destruct (read_csv _); simpl; eauto.
Qed.

Lemma load_table_returns sheet_url :
  ∃ df, load_table read_csv sheet_url = Ret df.
Proof.
  unfold load_table.
  destruct (read_google_sheet_returns sheet_url) as [o ->]. simpl. eauto.
Qed.

(** Only [read_google_sheet] decides the table: it catches its own
    exceptions, so the handler that calls [download_google_sheet] never
    runs. *)
Lemma load_table_first_reader sheet_url :
  load_table read_csv sheet_url
  = Ret (match read_csv (export_url sheet_url) with
         | Ret df => if bool_decide (length (rows df) = 0) then sample_df else df
         | Exc _ => sample_df
         end).
Proof.
  unfold load_table, read_google_sheet.
  by destruct (read_csv (export_url sheet_url)).
Qed.

(** What the batch returns is the processed table, and it returns it
    whenever the file can be written. *)
Lemma process_urls_from_sheet_table sheet_url max_urls df :
  load_table read_csv sheet_url = Ret df →
  process_urls_from_sheet read_csv to_csv scraper_run at_store sheet_url max_urls
  = match to_csv "proposal.csv" (process_table scraper_run at_store df max_urls) with
    | Ret _ => Some (process_table scraper_run at_store df max_urls)
    | Exc _ => None
    end.
Proof.
  intros E. unfold process_urls_from_sheet. rewrite E. simpl.
  by destruct (to_csv _ _).
Qed.

Lemma process_urls_from_sheet_out sheet_url max_urls df out :
  load_table read_csv sheet_url = Ret df →
  process_urls_from_sheet read_csv to_csv scraper_run at_store sheet_url max_urls
  = Some out →
  out = process_table scraper_run at_store df max_urls.
Proof.
  intros E. rewrite (process_urls_from_sheet_table _ _ _ E).
  destruct (to_csv _ _); [by intros [= <-]|done].
Qed.
End BatchFacts.

Section BatchClaims.
Import PyStr Extraction Batch Fixtures.

(** C3, as amended.  For every loaded table none of whose columns is
    named like one of the four result columns, the table returned by
    [process_urls_from_sheet] has one row per input row, in the same
    order, every original cell unchanged, and exactly the four result
    columns appended, whatever the per-row pipeline does; and the table
    is returned whenever the CSV file can be written. *)
Theorem C3_output_augments_input
    (read_csv : string → res DataFrame)
    (to_csv : string → DataFrame → res unit)
    (scraper_run : nat → pyval → res (option dict))
    (at_store : pyval → res pyval)
    (sheet_url : string) (max_urls : Z) (df : DataFrame) :
  load_table read_csv sheet_url = Ret df →
  fresh_columns df →
  (∀ out,
     process_urls_from_sheet read_csv to_csv scraper_run at_store sheet_url max_urls
     = Some out →
     augments df out)
  ∧ (to_csv "proposal.csv" (process_table scraper_run at_store df max_urls) = Ret () →
     ∃ out,
       process_urls_from_sheet read_csv to_csv scraper_run at_store sheet_url max_urls
       = Some out).
Proof.
  intros Hload Hfresh. split.
  - intros out Hout.
    rewrite (process_urls_from_sheet_out _ _ _ _ _ _ _ _ Hload Hout).
    by apply process_table_augments.
  - intros Hw. rewrite (process_urls_from_sheet_table _ _ _ _ _ _ _ Hload), Hw.
    eauto.
Qed.

Lemma fresh_columns_two : fresh_columns df_two.
Proof.
  intros c Hc Hin. apply extracted_columns_elem in Hc.
  change (c ∈ ["Company"; "Document type"]) in Hin.
  apply elem_of_cons in Hin as [->|Hin];
    [destruct Hc as [?|[?|[?|?]]]; discriminate|].
  apply list_elem_of_singleton in Hin as ->.
  destruct Hc as [?|[?|[?|?]]]; discriminate.
Qed.

Lemma C3_output_augments_input_witness :
  ∃ out,
    process_urls_from_sheet read_csv_two to_csv_ok run_raises_first at_str
      sheet_url 10
    = Some out
    ∧ augments df_two out.
Proof.
  destruct (C3_output_augments_input read_csv_two to_csv_ok run_raises_first
              at_str sheet_url 10 df_two) as [Haug Hret].
  - reflexivity.
  - exact fresh_columns_two.
  - destruct Hret as [out Hout]; [reflexivity|].
    exists out. split; [exact Hout|]. apply Haug, Hout.
Defined.

(** C3 fails as stated: on a sheet that already has a column named
    "Extracted Signed by" the batch overwrites that column, so an
    original cell changes and only three columns are appended. *)
Lemma C3_counterexample :
  load_table read_csv_rerun sheet_url = Ret df_rerun
  ∧ ∃ out r r',
      process_urls_from_sheet read_csv_rerun to_csv_ok run_found at_str sheet_url 10
      = Some out
      ∧ rows df_rerun !! 0%nat = Some r
      ∧ rows out !! 0%nat = Some r'
      ∧ "Extracted Signed by" ∈ columns df_rerun
      ∧ r !! "Extracted Signed by" = Some (PyStr "Katy Sully")
      ∧ r' !! "Extracted Signed by" = Some (PyStr "Jane Doe")
      ∧ length (columns out) = (length (columns df_rerun) + 3)%nat
      ∧ ¬ augments df_rerun out.
Proof.
  split; [reflexivity|]. eexists _, _, _.
  split; [reflexivity|]. split; [reflexivity|]. split; [reflexivity|].
  split; [by repeat constructor|].
  split; [vm_compute; reflexivity|]. split; [vm_compute; reflexivity|].
  split; [reflexivity|].
  intros (_ & Hcols & _). vm_compute in Hcols. discriminate.
Qed.

(** C4.  For a processed row whose pipeline returns a falsy result, the
    four result cells are "Error"; when the pipeline raises, the first
    is "Error: " followed by the message and the other three are
    "Error".  The other rows are unaffected: with any other pipeline that
    behaves the same on every row but this one, they come out the
    same. *)
Theorem C4_failed_row_marked
    (read_csv : string → res DataFrame)
    (to_csv : string → DataFrame → res unit)
    (scraper_run : nat → pyval → res (option dict))
    (at_store : pyval → res pyval)
    (sheet_url : string) (max_urls : Z) (df out : DataFrame)
    (i : nat) (r : dict) (company url : pyval) :
  load_table read_csv sheet_url = Ret df →
  process_urls_from_sheet read_csv to_csv scraper_run at_store sheet_url max_urls
  = Some out →
  rows df !! i = Some r →
  (i < urls_to_process max_urls df)%nat →
  r !! "Company" = Some company →
  r !! "Document type" = Some url →
  (∀ result, scraper_run i url = Ret result → truthy result = false →
     ∃ r', rows out !! i = Some r'
           ∧ ∀ c, c ∈ extracted_columns → r' !! c = Some (PyStr "Error"))
  ∧ (∀ e, scraper_run i url = Exc e →
       ∃ r', rows out !! i = Some r'
             ∧ r' !! "Extracted Signed by" = Some (PyStr ("Error: " ++ e))
             ∧ r' !! "Extracted Signed date" = Some (PyStr "Error")
             ∧ r' !! "Extracted IP address" = Some (PyStr "Error")
             ∧ r' !! "Extracted Sent by" = Some (PyStr "Error"))
  ∧ (∀ scraper_run' j,
       (∀ k u, k ≠ i → scraper_run' k u = scraper_run k u) →
       j ≠ i →
       rows (process_table scraper_run' at_store df max_urls) !! j
       = rows out !! j).
Proof.
  intros Hload Hout Hr Hi Hc Hu.
  rewrite (process_urls_from_sheet_out _ _ _ _ _ _ _ _ Hload Hout).
  assert (Hrow : ∀ run',
    rows (process_table run' at_store df max_urls) !! i
    = Some (fill_values (extracted_values run' at_store df i) (blank_row r))).
  { intros run'. rewrite process_table_rows, Hr.
    by rewrite bool_decide_eq_true_2. }
  assert (Hattempt : ∀ run',
    extracted_values run' at_store df i
    = match run' i url with
      | Ret result =>
          if truthy result then extracted_values run' at_store df i
          else (PyStr "Error", PyStr "Error", PyStr "Error", PyStr "Error")
      | Exc e => (PyStr ("Error: " ++ e), PyStr "Error", PyStr "Error", PyStr "Error")
      end).
  { intros run'. unfold extracted_values, iloc_get, getitem.
    rewrite Hr, Hc, Hu. simpl.
    destruct (run' i url) as [result|e]; simpl; [|done].
    by destruct (truthy result). }
  split; [|split].
  - intros result Hres Hfalsy. eexists. split; [apply Hrow|].
    rewrite Hattempt, Hres, Hfalsy. intros c Hin.
    apply extracted_columns_elem in Hin. unfold fill_values, fill_row.
    destruct Hin as [->|[->|[->| ->]]]; by simplify_map_eq.
  - intros e Hres. eexists. split; [apply Hrow|].
    rewrite Hattempt, Hres. unfold fill_values, fill_row.
    repeat split; by simplify_map_eq.
  - intros run' j Hsame Hj. rewrite !process_table_rows.
    assert (extracted_values run' at_store df j
            = extracted_values scraper_run at_store df j) as ->.
    { unfold extracted_values.
      destruct (iloc_get df j "Company"); simpl; [|done].
      destruct (iloc_get df j "Document type"); simpl; [|done].
      by rewrite Hsame. }
    done.
Qed.

Lemma C4_failed_row_marked_witness :
  ∃ out r0 r1,
    process_urls_from_sheet read_csv_two to_csv_ok run_raises_first at_str
      sheet_url 10
    = Some out
    ∧ rows out !! 0%nat = Some r0
    ∧ r0 !! "Extracted Signed by" = Some (PyStr "Error: session not created")
    ∧ r0 !! "Extracted Sent by" = Some (PyStr "Error")
    ∧ rows out !! 1%nat = Some r1
    ∧ r1 !! "Extracted Signed by" = Some (PyStr "Jane Doe").
Proof.
  destruct (C4_failed_row_marked read_csv_two to_csv_ok run_raises_first
              at_str sheet_url 10 df_two
              (process_table run_raises_first at_str df_two 10) 0
              (<["Document type" := PyStr "https://betterproposals.io/2/proposals/view?id=1"]>
                 (<["Company" := PyStr "Acme"]> ∅))
              (PyStr "Acme")
              (PyStr "https://betterproposals.io/2/proposals/view?id=1"))
    as (_ & Hexc & _); try reflexivity.
  { vm_compute. lia. }
  destruct (Hexc "session not created" eq_refl) as (r0 & H0 & Ha & _ & _ & Hd).
  eexists _, r0, _. split; [reflexivity|]. split; [exact H0|].
  split; [exact Ha|]. split; [exact Hd|]. split; [reflexivity|].
  vm_compute. reflexivity.
Defined.

(** C9.  When the sheet cannot be read, or is empty, by either reader,
    the batch runs over the built-in sample: three rows with exactly the
    six columns Company, Document type, Value, Date Created, Signed On,
    Signed by; the returned table is the processed sample, and it is
    returned whenever the CSV file can be written. *)
Theorem C9_sample_fallback
    (read_csv : string → res DataFrame)
    (to_csv : string → DataFrame → res unit)
    (scraper_run : nat → pyval → res (option dict))
    (at_store : pyval → res pyval)
    (sheet_url : string) (max_urls : Z) :
  (read_google_sheet read_csv sheet_url = Ret None
   ∨ ∃ df, read_google_sheet read_csv sheet_url = Ret (Some df)
           ∧ rows df = []) →
  (download_google_sheet read_csv sheet_url = Ret None
   ∨ ∃ df, download_google_sheet read_csv sheet_url = Ret (Some df)
           ∧ rows df = []) →
  load_table read_csv sheet_url = Ret sample_df
  ∧ length (rows sample_df) = 3%nat
  ∧ columns sample_df
    = ["Company"; "Document type"; "Value"; "Date Created"; "Signed On";
       "Signed by"]
  ∧ (∀ r, r ∈ rows sample_df → dom r = list_to_set (columns sample_df))
  ∧ (∀ out,
       process_urls_from_sheet read_csv to_csv scraper_run at_store sheet_url max_urls
       = Some out →
       out = process_table scraper_run at_store sample_df max_urls
       ∧ length (rows out) = 3%nat
       ∧ urls_to_process max_urls sample_df = Z.to_nat (Z.min max_urls 3))
  ∧ (to_csv "proposal.csv" (process_table scraper_run at_store sample_df max_urls)
     = Ret () →
     process_urls_from_sheet read_csv to_csv scraper_run at_store sheet_url max_urls
     = Some (process_table scraper_run at_store sample_df max_urls)).
Proof.
  intros Hread _.
  assert (Hload : load_table read_csv sheet_url = Ret sample_df).
  { unfold load_table.
    destruct Hread as [-> | (df & -> & Hempty)]; simpl; [done|].
    by rewrite Hempty. }
  split; [exact Hload|]. split; [reflexivity|]. split; [reflexivity|].
  split; [|split].
  - intros r Hin. unfold sample_df in Hin. simpl in Hin.
    repeat (apply elem_of_cons in Hin as [->|Hin]; [vm_compute; reflexivity|]).
    by apply elem_of_nil in Hin.
  - intros out Hout.
    rewrite (process_urls_from_sheet_out _ _ _ _ _ _ _ _ Hload Hout).
    split; [done|]. split; [apply process_table_length|done].
  - intros Hw.
    by rewrite (process_urls_from_sheet_table _ _ _ _ _ _ _ Hload), Hw.
Qed.

Lemma C9_sample_fallback_witness :
  load_table read_csv_down sheet_url = Ret sample_df
  ∧ ∃ out,
      process_urls_from_sheet read_csv_down to_csv_ok run_none at_str sheet_url 10
      = Some out
      ∧ length (rows out) = 3%nat.
Proof.
  destruct (C9_sample_fallback read_csv_down to_csv_ok run_none at_str
              sheet_url 10)
    as (Hload & _ & _ & _ & Hout & Hret).
  - left. reflexivity.
  - left. reflexivity.
  - split; [exact Hload|]. eexists. split; [apply Hret; reflexivity|].
    apply (Hout _ (Hret eq_refl)).
Defined.

(** C10, as amended.  For every loaded table none of whose columns is
    named like one of the four result columns, every row at a position
    at or beyond min(max_urls, row count) is present in the returned
    table with its four result cells equal to the empty string and all
    its original cells unchanged. *)
Theorem C10_rows_beyond_cap_untouched
    (read_csv : string → res DataFrame)
    (to_csv : string → DataFrame → res unit)
    (scraper_run : nat → pyval → res (option dict))
    (at_store : pyval → res pyval)
    (sheet_url : string) (max_urls : Z) (df out : DataFrame)
    (i : nat) (r : dict) :
  load_table read_csv sheet_url = Ret df →
  process_urls_from_sheet read_csv to_csv scraper_run at_store sheet_url max_urls
  = Some out →
  fresh_columns df →
  rows df !! i = Some r →
  (urls_to_process max_urls df ≤ i)%nat →
  ∃ r', rows out !! i = Some r'
        ∧ (∀ c, c ∈ extracted_columns → r' !! c = Some (PyStr ""))
        ∧ (∀ c, c ∈ columns df → r' !! c = r !! c).
Proof.
  intros Hload Hout Hfresh Hr Hi.
  rewrite (process_urls_from_sheet_out _ _ _ _ _ _ _ _ Hload Hout).
  rewrite process_table_rows, Hr, bool_decide_eq_false_2 by lia. simpl.
  eexists. split; [done|]. split.
  - apply blank_row_extracted.
  - intros c Hc. apply fill_row_other. intros ?. by eapply Hfresh.
Qed.

Lemma C10_rows_beyond_cap_untouched_witness :
  ∃ out r',
    process_urls_from_sheet read_csv_two to_csv_ok run_found at_str sheet_url 1
    = Some out
    ∧ rows out !! 1%nat = Some r'
    ∧ r' !! "Extracted Sent by" = Some (PyStr "")
    ∧ r' !! "Company" = Some (PyStr "Globex").
Proof.
  destruct (C10_rows_beyond_cap_untouched read_csv_two to_csv_ok run_found
              at_str sheet_url 1 df_two (process_table run_found at_str df_two 1) 1
              (<["Document type" := PyStr "https://betterproposals.io/2/proposals/view?id=2"]>
                 (<["Company" := PyStr "Globex"]> ∅)))
    as (r' & Hr' & Hblank & Horig); try reflexivity.
  { exact fresh_columns_two. }
  eexists _, r'. split; [reflexivity|]. split; [exact Hr'|]. split.
  - apply Hblank, extracted_columns_elem. tauto.
  - rewrite Horig; [reflexivity|]. left.
Defined.

(** C10 fails as stated: with max_urls = 0 no row is processed, and the
    cell of the input column "Extracted Signed by" is emptied. *)
Lemma C10_counterexample :
  load_table read_csv_rerun sheet_url = Ret df_rerun
  ∧ urls_to_process 0 df_rerun = 0%nat
  ∧ ∃ out r r',
      process_urls_from_sheet read_csv_rerun to_csv_ok run_found at_str sheet_url 0
      = Some out
      ∧ rows df_rerun !! 0%nat = Some r
      ∧ rows out !! 0%nat = Some r'
      ∧ "Extracted Signed by" ∈ columns df_rerun
      ∧ r !! "Extracted Signed by" = Some (PyStr "Katy Sully")
      ∧ r' !! "Extracted Signed by" = Some (PyStr "")
      ∧ r' !! "Extracted Signed by" ≠ r !! "Extracted Signed by".
Proof.
  split; [reflexivity|]. split; [reflexivity|]. eexists _, _, _.
  split; [reflexivity|]. split; [reflexivity|]. split; [reflexivity|].
  split; [by repeat constructor|].
  split; [vm_compute; reflexivity|]. split; [vm_compute; reflexivity|].
  vm_compute. discriminate.
Qed.
End BatchClaims.

(** * Navigation and login *)

Section NavigationFacts.
Import PyStr Navigation.

Ltac nav_unfold :=
  unfold login, click_submit, navigate_directly_to_document,
    navigate_to_document, try_D, get, current_url, wait_presence, clear,
    send_keys, find_elements, click, perform, mbind, D_bind, mret, D_ret;
  simpl.

Ltac nav_case :=
  match goal with
  | |- context [if negb ?b then _ else _] => destruct b eqn:?; simpl
  | |- context [match ?x with Ret _ => _ | Exc _ => _ end] =>
      destruct x as [?|?] eqn:?; simpl
  | |- context [if ?b then _ else _] => destruct b eqn:?; simpl
  | |- context [match ?l with [] => _ | _ :: _ => _ end] =>
      destruct l as [|? ?] eqn:?; simpl
  end.

Lemma contains_empty s : contains "" s = true.
Proof. by destruct s. Qed.

(** [navigate_directly_to_document] never raises, always starts with a
    navigation to the document, and answers True exactly when that
    navigation succeeds and the URL read right after it contains
    "proposals/view". *)
Theorem navigate_directly_criterion (d : driver) (document_url : string)
    (h : list call) :
  ∃ rest b,
    navigate_directly_to_document d document_url h
    = ((h ++ Get document_url :: rest)%list, Ret b)
    ∧ (b = true ↔ lands_on_document d document_url h).
Proof.
  unfold lands_on_document. nav_unfold. repeat nav_case;
    rewrite <- ?app_assoc; simpl; eexists _, _; (split; [reflexivity|]);
    split; intros H; try done; try (destruct H as (? & ? & ? & ?); congruence);
    try (destruct H as (? & _); congruence);
    try (destruct a; eauto).
Qed.

(** [navigate_to_document] does not navigate when the current URL already
    contains the document URL: one read of the URL, and True.  An empty
    document URL is contained in every URL. *)
Theorem navigate_to_document_already_there (d : driver)
    (document_url : string) (h : list call) (url : string) :
  on_current_url d h = Ret url →
  (contains document_url url = true →
   navigate_to_document d document_url h = ((h ++ [CurrentUrl])%list, Ret true))
  ∧ navigate_to_document d "" h = ((h ++ [CurrentUrl])%list, Ret true).
Proof.
  intros Hurl. split; [intros Hin|]; nav_unfold; rewrite Hurl; simpl.
  - by rewrite Hin.
  - by rewrite contains_empty.
Qed.

(** [navigate_to_document] never raises, and answers True exactly when
    the URL can be read and either contains the document URL already, or
    the navigation succeeds and the URL read after it contains
    "proposals/view". *)
Theorem navigate_to_document_criterion (d : driver) (document_url : string)
    (h : list call) :
  ∃ rest b,
    navigate_to_document d document_url h
    = ((h ++ CurrentUrl :: rest)%list, Ret b)
    ∧ (b = true ↔
       ∃ url, on_current_url d h = Ret url
              ∧ (contains document_url url = true
                 ∨ (on_get d (h ++ [CurrentUrl])%list document_url = Ret ()
                    ∧ ∃ url', on_current_url d
                                (h ++ [CurrentUrl; Get document_url])%list
                              = Ret url'
                              ∧ contains "proposals/view" url' = true))).
Proof.
  nav_unfold. repeat nav_case;
    rewrite <- ?app_assoc in *; simpl in *; eexists _, _;
    (split; [reflexivity|]); split; intros H; try done.
  all: try (destruct H as (? & [= <-] & [?|(? & ? & ? & ?)]); congruence).
  all: try (destruct H as (? & ? & _); congruence).
  all: try (eexists; split; [done|]; eauto).
  right. split; [by destruct a0|]. eauto.
Qed.

(** When the direct navigation reaches the document, [login] answers True
    after those two calls and touches nothing else: no credential is
    typed. *)
Theorem login_skipped_when_signed_in (d : driver)
    (login_url document_url email password : string) (h : list call) :
  lands_on_document d document_url h →
  login d login_url document_url email password h
  = ((h ++ [Get document_url; CurrentUrl])%list, Ret true).
Proof.
  intros (Hget & url & Hurl & Hin). nav_unfold.
  rewrite Hget. simpl. rewrite Hurl. simpl. rewrite Hin. simpl.
  by rewrite <- app_assoc.
Qed.

Ltac pre_of l :=
  match l with
  | Get ?u :: ?t => let r := pre_of t in constr:(Get u :: r)
  | CurrentUrl :: ?t => let r := pre_of t in constr:(CurrentUrl :: r)
  | _ => constr:(@nil call)
  end.

(** The shape of every run of [login]. *)
Lemma login_shape (d : driver)
    (login_url document_url email password : string) (h : list call) :
  ∃ new b,
    login d login_url document_url email password h = ((h ++ new)%list, Ret b)
    ∧ ((lands_on_document d document_url h ∧ b = true
        ∧ new = [Get document_url; CurrentUrl])
       ∨ (¬ lands_on_document d document_url h
          ∧ ((b = false ∧ ∀ e, Click e ∉ new)
             ∨ ∃ pre email_field password_field login_button post,
                 new = (pre ++ form_calls email password email_field
                                  password_field login_button ++ post)%list
                 ∧ Forall is_read_or_get pre
                 ∧ post
                   = match on_click d
                             (h ++ pre ++ fill_calls email password email_field
                                            password_field
                                ++ [FindElements submit_xpath])%list
                             login_button with
                     | Ret _ => [CurrentUrl]
                     | Exc _ => []
                     end
                 ∧ (∃ others,
                      on_find_elements d
                        (h ++ pre ++ fill_calls email password email_field
                                       password_field)%list submit_xpath
                      = Ret (login_button :: others))
                 ∧ (b = true →
                    ∃ url, post = [CurrentUrl]
                           ∧ on_current_url d
                               (h ++ pre ++ form_calls email password
                                  email_field password_field login_button)%list
                             = Ret url
                           ∧ contains "/login/" url = false)))).
Proof.
  nav_unfold. repeat nav_case;
    rewrite <- ?app_assoc in *; simpl in *; eexists _, _;
    (split; [reflexivity|]).
  all: try (left; split; [split; [by destruct_and?; repeat match goal with u : () |- _ => destruct u end| eauto]|done]).
  all: right; (split; [intros (? & ? & ? & ?); congruence|]).
  all: first
    [ left; split; [reflexivity|];
      intros e H;
      repeat (apply elem_of_cons in H as [H|H]; [discriminate|]);
      by apply elem_of_nil in H
    | right; eexists _, _, _, _, _;
      split;
      [ match goal with
        | |- ?L = (?p ++ _)%list => let p' := pre_of L in unify p p'
        end; reflexivity | ];
      split; [repeat (constructor; [exact I|]); constructor|];
      split;
      [ match goal with
        | H : on_click _ _ _ = ?r |- _ = match ?x with _ => _ end =>
            replace x with r by (symmetry; exact H)
        end; reflexivity | ];
      split; [eexists; eassumption|];
      intros Hb;
      first [ discriminate
            | eexists; split; [reflexivity|]; split; [eassumption|done] ] ].
Qed.

(** [login] never raises.  It answers True only when the direct
    navigation reached the document, or when it has clicked a submit
    button and the URL read right after the click does not contain
    "/login/". *)
Theorem login_success_criterion (d : driver)
    (login_url document_url email password : string) (h : list call) :
  ∃ new b,
    login d login_url document_url email password h = ((h ++ new)%list, Ret b)
    ∧ (b = true →
       lands_on_document d document_url h
       ∨ ∃ pre e url,
           new = (pre ++ [Click e; CurrentUrl])%list
           ∧ on_current_url d (h ++ pre ++ [Click e])%list = Ret url
           ∧ contains "/login/" url = false).
Proof.
  destruct (login_shape d login_url document_url email password h)
    as (new & b & E & Hshape).
  exists new, b. split; [exact E|]. intros ->.
  destruct Hshape as [(Hl & _) | (_ & [([=] & _) | Hform])]; [by left|].
  destruct Hform as (pre & ef & pf & lb & post & -> & _ & _ & _ & Hsucc).
  destruct (Hsucc eq_refl) as (url & -> & Hurl & Hno). right.
  exists (pre ++ fill_calls email password ef pf ++ [FindElements submit_xpath])%list,
    lb, url.
  unfold form_calls in *. rewrite <- ?app_assoc in *. simpl in *. done.
Qed.

(** Whenever [login] clicks, that click is its only one and comes right
    after the form has been filled in order: the e-mail into the field
    Email, the password into the field Password, then the search for
    submit buttons, of which the first is clicked.  Before that it only
    navigates and reads the URL.  After the click it reads the URL once
    when the click returned, and does nothing more when the click
    raised. *)
Theorem login_click_follows_credentials (d : driver)
    (login_url document_url email password : string) (h new : list call)
    (b : bool) (e : elem) :
  login d login_url document_url email password h = ((h ++ new)%list, Ret b) →
  Click e ∈ new →
  ∃ pre email_field password_field post others,
    new = (pre ++ form_calls email password email_field password_field e
           ++ post)%list
    ∧ Forall is_read_or_get pre
    ∧ post
      = match on_click d
                (h ++ pre ++ fill_calls email password email_field
                               password_field
                   ++ [FindElements submit_xpath])%list e with
        | Ret _ => [CurrentUrl]
        | Exc _ => []
        end
    ∧ on_find_elements d
        (h ++ pre ++ fill_calls email password email_field password_field)%list
        submit_xpath
      = Ret (e :: others).
Proof.
  intros E Hin.
  destruct (login_shape d login_url document_url email password h)
    as (new' & b' & E' & Hshape).
  rewrite E in E'. injection E' as Hnew <-. apply app_inv_head in Hnew as <-.
  destruct Hshape as [(_ & _ & ->) | (_ & [(_ & Hno) | Hform])].
  - apply elem_of_cons in Hin as [?|Hin]; [done|].
    apply list_elem_of_singleton in Hin. done.
  - by destruct (Hno e).
  - destruct Hform as (pre & ef & pf & lb & post & -> & Hpre & Hpost
                       & (others & Hfind) & _).
    assert (e = lb) as ->.
    { apply elem_of_app in Hin as [Hin|Hin].
      - rewrite Forall_forall in Hpre. by destruct (Hpre _ Hin).
      - apply elem_of_app in Hin as [Hin|Hin].
        + unfold form_calls, fill_calls in Hin. simpl in Hin.
          repeat (apply elem_of_cons in Hin as [Hin|Hin]; [congruence|]).
          by apply elem_of_nil in Hin.
        + rewrite Hpost in Hin. destruct (on_click _ _ _).
          * apply list_elem_of_singleton in Hin. discriminate.
          * by apply elem_of_nil in Hin. }
    eauto 10.
Qed.

(** On a page without a submit button [login] answers False and clicks
    nothing, unless the direct navigation had already reached the
    document. *)
Theorem login_without_submit_button (d : driver)
    (login_url document_url email password : string) (h new : list call)
    (b : bool) :
  (∀ hist, on_find_elements d hist submit_xpath = Ret []) →
  ¬ lands_on_document d document_url h →
  login d login_url document_url email password h = ((h ++ new)%list, Ret b) →
  b = false ∧ ∀ e, Click e ∉ new.
Proof.
  intros Hnone Hnot E.
  destruct (login_shape d login_url document_url email password h)
    as (new' & b' & E' & Hshape).
  rewrite E in E'. injection E' as Hnew <-. apply app_inv_head in Hnew as <-.
  destruct Hshape as [(Hl & _) | (_ & [Hno | Hform])]; [done|done|].
  destruct Hform as (pre & ef & pf & lb & post & _ & _ & _ & (others & Hfind) & _).
  rewrite Hnone in Hfind. discriminate.
Qed.

Lemma navigate_to_document_already_there_witness :
  navigate_to_document NavFixtures.driver_signed_in NavFixtures.document_url []
  = ([CurrentUrl], Ret true)
  ∧ navigate_to_document NavFixtures.driver_login_page "" []
    = ([CurrentUrl], Ret true).
Proof.
  split.
  - apply (navigate_to_document_already_there NavFixtures.driver_signed_in
             NavFixtures.document_url []
             "https://betterproposals.io/2/proposals/view?id=2366358");
      reflexivity.
  - apply (navigate_to_document_already_there NavFixtures.driver_login_page
             NavFixtures.document_url []
             "https://betterproposals.io/2/login/"). reflexivity.
Defined.

Lemma login_skipped_when_signed_in_witness :
  login NavFixtures.driver_signed_in NavFixtures.login_url
    NavFixtures.document_url "me@example.com" "secret" []
  = ([Get NavFixtures.document_url; CurrentUrl], Ret true).
Proof.
  apply (login_skipped_when_signed_in NavFixtures.driver_signed_in
           NavFixtures.login_url NavFixtures.document_url
           "me@example.com" "secret" []).
  split; [reflexivity|]. eexists. split; reflexivity.
Defined.

Lemma login_click_follows_credentials_witness :
  ∃ pre email_field password_field post others,
    [Get NavFixtures.document_url; CurrentUrl; CurrentUrl; CurrentUrl;
     WaitPresence "Email"; Clear 5; SendKeys 5 "me@example.com";
     WaitPresence "Password"; Clear 8; SendKeys 8 "secret";
     FindElements submit_xpath; Click 7; CurrentUrl]
    = (pre ++ form_calls "me@example.com" "secret" email_field password_field 7
       ++ post)%list
    ∧ Forall is_read_or_get pre
    ∧ post
      = match on_click NavFixtures.driver_login_page
                ([] ++ pre ++ fill_calls "me@example.com" "secret" email_field
                                 password_field
                   ++ [FindElements submit_xpath])%list 7 with
        | Ret _ => [CurrentUrl]
        | Exc _ => []
        end
    ∧ on_find_elements NavFixtures.driver_login_page
        ([] ++ pre ++ fill_calls "me@example.com" "secret" email_field
                         password_field)%list submit_xpath
      = Ret (7 :: others).
Proof.
  apply (login_click_follows_credentials NavFixtures.driver_login_page
           NavFixtures.login_url NavFixtures.document_url
           "me@example.com" "secret" [] _ true 7).
  - reflexivity.
  - do 11 apply list_elem_of_further. apply list_elem_of_here.
Defined.

Lemma login_without_submit_button_witness :
  false = false
  ∧ ∀ e,
      Click e
      ∉ [Get NavFixtures.document_url; CurrentUrl; CurrentUrl; CurrentUrl;
         WaitPresence "Email"; Clear 5; SendKeys 5 "me@example.com";
         WaitPresence "Password"; Clear 8; SendKeys 8 "secret";
         FindElements submit_xpath].
Proof.
  apply (login_without_submit_button NavFixtures.driver_no_button
           NavFixtures.login_url NavFixtures.document_url
           "me@example.com" "secret" [] _ false).
  - reflexivity.
  - intros (_ & url & Hurl & Hin). injection Hurl as <-. discriminate.
  - reflexivity.
Defined.

Lemma navigate_directly_criterion_witness :
  ∃ rest,
    navigate_directly_to_document NavFixtures.driver_signed_in
      NavFixtures.document_url []
    = (Get NavFixtures.document_url :: rest, Ret true).
Proof.
  destruct (navigate_directly_criterion NavFixtures.driver_signed_in
              NavFixtures.document_url []) as (rest & b & E & Hiff).
  exists rest. rewrite E. f_equal. f_equal. apply Hiff.
  split; [reflexivity|]. eexists. split; reflexivity.
Defined.

Lemma navigate_to_document_criterion_witness :
  ∃ rest,
    navigate_to_document NavFixtures.driver_signed_in "https://example.org/" []
    = (CurrentUrl :: rest, Ret true).
Proof.
  destruct (navigate_to_document_criterion NavFixtures.driver_signed_in
              "https://example.org/" []) as (rest & b & E & Hiff).
  exists rest. rewrite E. f_equal. f_equal. apply Hiff.
  eexists. split; [reflexivity|]. right. split; [reflexivity|].
  eexists. split; reflexivity.
Defined.

Lemma login_success_criterion_witness :
  ∃ new,
    login NavFixtures.driver_no_button NavFixtures.login_url
      NavFixtures.document_url "me@example.com" "secret" []
    = (new, Ret false).
Proof.
  destruct (login_success_criterion NavFixtures.driver_no_button
              NavFixtures.login_url NavFixtures.document_url
              "me@example.com" "secret" []) as (new & b & E & Hsucc).
  exists new. rewrite E. f_equal. f_equal.
  destruct b; [|reflexivity].
  destruct (Hsucc eq_refl) as [(_ & url & Hurl & Hin) | (pre & e & url & _ & Hurl & Hin)];
    injection Hurl as <-; discriminate.
Defined.
End NavigationFacts.

(** * More about the extraction tiers *)

Section StringFacts.
Import PyStr.

Lemma string_app_assoc (a b c : string) : (a ++ b) ++ c = a ++ (b ++ c).
Proof.
  induction a as [|x a IH]; [done|].
  change (String x ((a ++ b) ++ c) = String x (a ++ b ++ c)). by rewrite IH.
Qed.

Lemma string_app_nil_r (a : string) : a ++ "" = a.
Proof.
  induction a as [|x a IH]; [done|].
  change (String x (a ++ "") = String x a). by rewrite IH.
Qed.

Lemma strip_prefix_app x r : strip_prefix x (x ++ r) = Some r.
Proof.
  induction x as [|a x IH]; [done|].
  change (strip_prefix (String a x) (String a (x ++ r)) = Some r).
  simpl. by rewrite Ascii.eqb_refl.
Qed.

Lemma contains_cons x c s : contains x s = true → contains x (String c s) = true.
Proof. intros H. simpl. rewrite H. apply orb_true_r. Qed.

Lemma contains_app_l x pre s : contains x s = true → contains x (pre ++ s) = true.
Proof.
  intros H. induction pre as [|c pre IH]; [done|].
  change (contains x (String c (pre ++ s)) = true). by apply contains_cons.
Qed.

Lemma contains_here x post : contains x (x ++ post) = true.
Proof.
  assert (startswith x (x ++ post) = true) as H.
  { unfold startswith. by rewrite strip_prefix_app. }
  destruct (x ++ post); simpl; by rewrite H.
Qed.

(** [x] occurs in any string built around it. *)
Lemma contains_middle x pre post : contains x (pre ++ x ++ post) = true.
Proof. apply contains_app_l, contains_here. Qed.
End StringFacts.

Section ExtractionMore.
Import PyStr Extraction More.

Lemma timeline_fold bs h sent :
  fold_left timeline_step bs (h, sent)
  = (h ++ joined_markup bs, (sent ++ omap candidate_of bs)%list).
Proof.
  revert h sent. induction bs as [|b bs IH]; intros h sent; simpl.
  - by rewrite string_app_nil_r, app_nil_r.
  - rewrite IH, string_app_assoc. f_equal.
    unfold candidate_of. destruct (titles b) as [|t ts]; [done|].
    destruct (contains marker t); [|done]. by rewrite <- app_assoc.
Qed.

(** [extract_certificate_info] on a page that can be read: a missing
    certificate is not a failure and gives the empty string; the timeline
    markup is the markup of all blocks in page order; the candidates are,
    in page order, exactly the blocks whose first title contains
    "Sent by", each with its own markup and that title. *)
Theorem extract_certificate_info_result (p : page) :
  extract_certificate_info (Ret p)
  = Some {| certificate_html := default "" (certificate_section p);
            timeline_html := joined_markup (timeline_blocks p);
            sent_by_blocks := omap candidate_of (timeline_blocks p) |}.
Proof.
  unfold extract_certificate_info. by rewrite timeline_fold.
Qed.

Lemma joined_markup_contains b bs :
  b ∈ bs → contains (outer_html b) (joined_markup bs) = true.
Proof.
  induction bs as [|b' bs IH]; intros Hin; [by apply elem_of_nil in Hin|].
  apply elem_of_cons in Hin as [->|Hin]; simpl.
  - apply contains_here.
  - apply contains_app_l. by apply IH.
Qed.

(** Every candidate returned by [extract_certificate_info] has a title
    containing "Sent by", and its markup occurs in the timeline markup
    returned with it. *)
Theorem extract_candidates_in_timeline (p : res page) (raw : raw_extraction)
    (c : block) :
  extract_certificate_info p = Some raw →
  c ∈ sent_by_blocks raw →
  contains marker (text c) = true
  ∧ contains (html c) (timeline_html raw) = true.
Proof.
  destruct p as [p|e]; [|done]. rewrite extract_certificate_info_result.
  intros [= <-]. simpl. intros Hin.
  apply list_elem_of_omap in Hin as (b & Hb & Hc).
  unfold candidate_of in Hc. destruct (titles b) as [|t ts]; [done|].
  destruct (contains marker t) eqn:Ht; [|done]. injection Hc as <-. simpl.
  split; [done|]. by apply joined_markup_contains.
Qed.

Lemma extract_candidates_in_timeline_witness :
  contains marker "Sent by Alice" = true
  ∧ contains "<li>sent</li>" "<li>viewed</li><li>sent</li><li>note</li>" = true.
Proof.
  apply (extract_candidates_in_timeline (Ret page_timeline)
           {| certificate_html := "<div>certificate</div>";
              timeline_html := "<li>viewed</li><li>sent</li><li>note</li>";
              sent_by_blocks := [{| html := "<li>sent</li>";
                                    text := "Sent by Alice" |}] |}
           {| html := "<li>sent</li>"; text := "Sent by Alice" |}).
  - reflexivity.
  - apply list_elem_of_here.
Defined.

(** On every path [parse_with_openai] returns a dictionary whose "Sent by"
    entry is a string, and it sends at most one request: none without an
    API key, and with a key exactly one, carrying the certificate markup
    and the sender read from the candidates. *)
Theorem parse_with_openai_always_has_sender
    (search : pattern → string → res (option string))
    (api_key : option string) (chat : request → api_response)
    (raw : raw_extraction) :
  (∃ d v, (parse_with_openai search api_key chat raw).2 = Ret d
          ∧ d !! "Sent by" = Some (PyStr v))
  ∧ (parse_with_openai search api_key chat raw).1
    = if key_set api_key
      then [(certificate_html raw, direct_sent_by raw)]
      else [].
Proof.
  unfold parse_with_openai. split.
  - destruct (key_set api_key); simpl.
    + destruct (chat _) as [e| |parsed]; simpl;
        rewrite ?manual_extract_eq; simpl;
        try (eexists _, _; split; [done|]; apply fields_dict_lookup_sent_by).
      destruct parsed; simpl; rewrite ?manual_extract_eq; simpl;
        try (eexists _, _; split; [done|]; apply fields_dict_lookup_sent_by).
      eexists _, _. split; [done|]. apply lookup_insert_eq.
    + rewrite manual_extract_eq. simpl.
      eexists _, _. split; [done|]. apply fields_dict_lookup_sent_by.
  - by destruct (key_set api_key).
Qed.

(** Every failure of the model tier gives exactly what the scraper returns
    without an API key: an exception from the service, a response that is
    not JSON, and JSON that is not an object are all replaced by the
    result of [manual_extract]. *)
Theorem parse_with_openai_fallback
    (search : pattern → string → res (option string))
    (api_key : option string) (chat : request → api_response)
    (raw : raw_extraction) :
  (∀ d, chat (certificate_html raw, direct_sent_by raw) ≠ ApiJson (PyDict d)) →
  (parse_with_openai search api_key chat raw).2
  = manual_extract search raw (direct_sent_by raw).
Proof.
  intros Hfail. unfold parse_with_openai.
  destruct (key_set api_key); simpl; [|by rewrite manual_extract_eq].
  destruct (chat _) as [e| |parsed] eqn:E; simpl;
    rewrite ?manual_extract_eq; simpl; try done.
  destruct parsed; simpl; rewrite ?manual_extract_eq; simpl; try done.
  by destruct (Hfail d).
Qed.

Lemma parse_with_openai_fallback_witness :
  (parse_with_openai py_search (Some "sk-test") chat_list Fixtures.raw_jane).2
  = manual_extract py_search Fixtures.raw_jane "Alice".
Proof.
  apply (parse_with_openai_fallback py_search (Some "sk-test") chat_list
           Fixtures.raw_jane).
  intros d. discriminate.
Defined.

(** When the model service answers with a JSON object, the result is that
    object with "Sent by" set to the sender read from the candidates: the
    other entries are passed on as given, whatever their type, and keys
    the model left out stay absent. *)
Theorem parse_with_openai_passes_model_values
    (search : pattern → string → res (option string))
    (api_key : option string) (chat : request → api_response)
    (raw : raw_extraction) (d : dict) :
  key_set api_key = true →
  chat (certificate_html raw, direct_sent_by raw) = ApiJson (PyDict d) →
  ∃ result,
    (parse_with_openai search api_key chat raw).2 = Ret result
    ∧ result !! "Sent by" = Some (PyStr (direct_sent_by raw))
    ∧ (∀ k, k ≠ "Sent by" → result !! k = d !! k)
    ∧ dom result = {[ "Sent by" ]} ∪ dom d.
Proof.
  intros Hk Hchat. unfold parse_with_openai. rewrite Hk. simpl.
  rewrite Hchat. simpl. eexists. split; [done|].
  split; [apply lookup_insert_eq|]. split.
  - intros k Hne. by apply lookup_insert_ne.
  - apply dom_insert_L.
Qed.

Lemma parse_with_openai_passes_model_values_witness :
  ∃ result,
    (parse_with_openai py_search (Some "sk-test") chat_partial
       Fixtures.raw_jane).2 = Ret result
    ∧ result !! "Sent by" = Some (PyStr "Alice")
    ∧ result !! "Signed date" = Some (PyInt 2025)
    ∧ result !! "IP address" = None.
Proof.
  destruct (parse_with_openai_passes_model_values py_search (Some "sk-test")
              chat_partial Fixtures.raw_jane
              (<["Signed date" := PyInt 2025]>
                 (<["Signed by" := PyStr "Jane Doe"]> ∅)))
    as (result & E & Hs & Hother & _); [reflexivity..|].
  exists result. split; [exact E|]. split; [exact Hs|]. split.
  - rewrite Hother; [reflexivity|discriminate].
  - rewrite Hother; [reflexivity|discriminate].
Defined.

(** The order in which [manual_extract] settles the sender: a sender
    passed in, other than "Not found", wins; otherwise the first candidate
    whose title contains the marker gives its stripped title, unless that
    is "Not found"; otherwise, when there is no such candidate or it
    strips to "Not found", the trimmed capture of the timeline pattern,
    and "Not found" when that does not match or raises. *)
Theorem manual_extract_sender_precedence
    (search : pattern → string → res (option string))
    (raw : raw_extraction) (sent_by : string) :
  ∃ d,
    manual_extract search raw sent_by = Ret d
    ∧ (sent_by ≠ not_found → d !! "Sent by" = Some (PyStr sent_by))
    ∧ (sent_by = not_found →
       ∀ v, first_sent_by (sent_by_blocks raw) = Some v → v ≠ not_found →
            d !! "Sent by" = Some (PyStr v))
    ∧ (sent_by = not_found →
       first_sent_by (sent_by_blocks raw) = None
       ∨ first_sent_by (sent_by_blocks raw) = Some not_found →
       d !! "Sent by"
       = Some (PyStr match search timeline_pattern (timeline_html raw) with
                     | Ret (Some g) => strip g
                     | _ => not_found
                     end)).
Proof.
  eexists. split; [apply manual_extract_eq|].
  rewrite fields_dict_lookup_sent_by. unfold sent_by_outcome.
  split; [|split].
  - intros Hne. apply String.eqb_neq in Hne. rewrite Hne. simpl. by rewrite Hne.
  - intros -> v Hv Hne. rewrite Hv. simpl.
    destruct (sent_by_blocks raw) as [|b bs]; [done|].
    rewrite bool_decide_eq_true_2 by done. simpl.
    apply String.eqb_neq in Hne. by rewrite Hne.
  - intros -> [Hnone | Hsentinel].
    + rewrite Hnone. simpl.
      by destruct (bool_decide _); simpl; destruct (search _ _) as [[g|]|e].
    + rewrite Hsentinel. simpl.
      by destruct (bool_decide _); simpl; destruct (search _ _) as [[g|]|e].
Qed.

Lemma manual_extract_sender_precedence_witness :
  ∃ d d' d'',
    manual_extract py_search Fixtures.raw_jane "Carol" = Ret d
    ∧ d !! "Sent by" = Some (PyStr "Carol")
    ∧ manual_extract py_search Fixtures.raw_jane not_found = Ret d'
    ∧ d' !! "Sent by" = Some (PyStr "Alice")
    ∧ manual_extract py_search Fixtures.raw_sentinel not_found = Ret d''
    ∧ d'' !! "Sent by" = Some (PyStr "<b>Not found</b>").
Proof.
  destruct (manual_extract_sender_precedence py_search Fixtures.raw_jane "Carol")
    as (d & E & H1 & _).
  destruct (manual_extract_sender_precedence py_search Fixtures.raw_jane not_found)
    as (d' & E' & _ & H2 & _).
  destruct (manual_extract_sender_precedence py_search Fixtures.raw_sentinel
              not_found) as (d'' & E'' & _ & _ & H3).
  exists d, d', d''. split; [exact E|]. split; [apply H1; discriminate|].
  split; [exact E'|]. split; [apply H2; [reflexivity|reflexivity|discriminate]|].
  split; [exact E''|]. rewrite H3; [reflexivity|reflexivity|right; reflexivity].
Defined.
End ExtractionMore.

(** * Captured values *)

Section CapturedValues.
Import PyStr Extraction.

Lemma strip_prefix_extend x r u t :
  strip_prefix x r = Some u → strip_prefix x (r ++ t) = Some (u ++ t).
Proof.
  revert r. induction x as [|a x IH]; intros r; simpl.
  - by intros [= ->].
  - destruct r as [|b r]; [done|].
    change (String b r ++ t) with (String b (r ++ t)). simpl.
    destruct (Ascii.eqb a b); [apply IH|done].
Qed.

Lemma startswith_extend x r t :
  startswith x r = true → startswith x (r ++ t) = true.
Proof.
  unfold startswith. destruct (strip_prefix x r) as [u|] eqn:E; [|done].
  by rewrite (strip_prefix_extend _ _ _ t E).
Qed.

Lemma contains_extend x r t : contains x r = true → contains x (r ++ t) = true.
Proof.
  induction r as [|c r IH].
  - simpl. rewrite orb_false_r. intros H.
    apply (startswith_extend _ _ t) in H. change ("" ++ t) with t in *.
    destruct t; simpl; by rewrite H.
  - change (String c r ++ t) with (String c (r ++ t)). simpl.
    intros [H|H]%orb_true_iff.
    + apply (startswith_extend _ _ t) in H.
      change (String c r ++ t) with (String c (r ++ t)) in H. by rewrite H.
    + rewrite (IH H). apply orb_true_r.
Qed.

Lemma find_before_prefix x s r : find_before x s = Some r → ∃ t, s = r ++ t.
Proof.
  revert r. induction s as [|c s IH]; intros r; simpl.
  - destruct (startswith x ""); [|done]. intros [= <-]. by exists "".
  - destruct (startswith x (String c s)); [intros [= <-]; by eexists|].
    destruct (find_before x s) as [r'|]; [|done]. simpl. intros [= <-].
    destruct (IH r' eq_refl) as [t ->]. by exists t.
Qed.

(** The text before the first occurrence of a non-empty [x] does not
    contain [x]. *)
Lemma find_before_clean a x s r :
  find_before (String a x) s = Some r → contains (String a x) r = false.
Proof.
  revert r. induction s as [|c s IH]; intros r.
  - done.
  - cbn [find_before]. destruct (startswith (String a x) (String c s)) eqn:Hs.
    { intros [= <-]. done. }
    destruct (find_before (String a x) s) as [r'|] eqn:Hr; [|done].
    simpl. intros [= <-].
    destruct (find_before_prefix _ _ _ Hr) as [t ->].
    cbn [contains]. rewrite (IH r' eq_refl), orb_false_r.
    destruct (startswith (String a x) (String c r')) eqn:Hs'; [|done].
    apply (startswith_extend _ _ t) in Hs'.
    change (String c r' ++ t) with (String c (r' ++ t)) in Hs'. congruence.
Qed.

Lemma lstrip_suffix s : suffix (lstrip s) s.
Proof.
  induction s as [|c s IH]; simpl; [constructor|].
  destruct (isspace c); by constructor.
Qed.

Lemma contains_suffix x u s : suffix u s → contains x u = true → contains x s = true.
Proof.
  induction 1 as [|c s u _ IH]; [done|]. intros H. simpl.
  rewrite (IH H). apply orb_true_r.
Qed.

Lemma rstrip_prefix s : ∃ t, s = rstrip s ++ t.
Proof.
  induction s as [|c s [t IH]]; [by exists ""|]. simpl.
  destruct (rstrip s) as [|c' r] eqn:E.
  - destruct (isspace c); [by eexists|]. exists s. done.
  - exists t. change (String c s = String c (String c' r ++ t)). by rewrite <- IH.
Qed.

Lemma strip_keeps_clean x s : contains x s = false → contains x (strip s) = false.
Proof.
  intros H. destruct (contains x (strip s)) eqn:E; [|done].
  unfold strip in E. destruct (rstrip_prefix (lstrip s)) as [t Ht].
  apply (contains_extend _ _ t) in E. rewrite <- Ht in E.
  apply (contains_suffix _ _ s (lstrip_suffix s)) in E. congruence.
Qed.

Lemma rstrip_idem s : rstrip (rstrip s) = rstrip s.
Proof.
  induction s as [|c s IH]; [done|]. simpl.
  destruct (rstrip s) as [|c' r] eqn:E.
  - destruct (isspace c) eqn:Hc; [done|]. simpl. by rewrite Hc.
  - simpl in *. rewrite IH. done.
Qed.

Lemma lstrip_head s : lstrip (rstrip (lstrip s)) = rstrip (lstrip s).
Proof.
  assert (H : ∀ y, lstrip y = y → lstrip (rstrip y) = rstrip y).
  { intros [|c y]; [done|]. simpl. destruct (isspace c) eqn:Hc.
    - intros Hy. pose proof (suffix_length _ _ (lstrip_suffix y)) as L.
      rewrite Hy in L. simpl in L. lia.
    - intros _. destruct (rstrip y); simpl; by rewrite Hc. }
  apply H. induction s as [|c s IH]; [done|]. simpl.
  destruct (isspace c) eqn:Hc; [done|]. simpl. by rewrite Hc.
Qed.

Lemma strip_idem s : strip (strip s) = strip s.
Proof. unfold strip. by rewrite lstrip_head, rstrip_idem. Qed.

(** Every certificate field derived by [manual_extract] is trimmed and
    never contains a closing div tag: the capture stops at the first
    closing tag, so a value with nested markup is cut there. *)
Theorem certificate_values_are_clean (raw : raw_extraction) (sent_by : string) :
  ∃ d,
    manual_extract py_search raw sent_by = Ret d
    ∧ ∀ label key, (label, key) ∈ certificate_fields →
        ∃ v, d !! key = Some (PyStr v)
             ∧ strip v = v
             ∧ contains "</div>" v = false.
Proof.
  eexists. split; [apply manual_extract_eq|].
  rewrite !field_outcome_spec.
  assert (Hclean : ∀ label,
    strip (spec_field label (certificate_html raw))
    = spec_field label (certificate_html raw)
    ∧ contains "</div>" (spec_field label (certificate_html raw)) = false).
  { intros label. unfold spec_field, labelled_value.
    destruct (find_after label _) as [r1|]; simpl; [|done].
    destruct (find_after value_open r1) as [r2|]; simpl; [|done].
    destruct (find_before "</div>" r2) as [g|] eqn:E; simpl; [|done].
    split; [apply strip_idem|].
    apply strip_keeps_clean. by eapply find_before_clean. }
  intros label key Hin. unfold certificate_fields, fields_dict in *.
  repeat (apply elem_of_cons in Hin as [[= -> ->]|Hin];
          [eexists; split; [by simplify_map_eq|apply Hclean]|]).
  by apply elem_of_nil in Hin.
Qed.

Lemma certificate_values_are_clean_witness :
  ∃ d v,
    manual_extract py_search Fixtures.raw_jane not_found = Ret d
    ∧ d !! "Signed date" = Some (PyStr v)
    ∧ strip v = v
    ∧ contains "</div>" v = false.
Proof.
  destruct (certificate_values_are_clean Fixtures.raw_jane not_found)
    as (d & E & Hall).
  destruct (Hall "Accepted and Signed on" "Signed date") as (v & Hv & Hs & Hc).
  { right. left. }
  exists d, v. repeat split; assumption.
Defined.
End CapturedValues.

(** * More about one browser session *)

Section SessionMore.
Import PyStr Extraction Session More.

Lemma parsed_not_empty (d : dict) v : d !! "Sent by" = Some v → d ≠ ∅.
Proof. intros H ->. by rewrite lookup_empty in H. Qed.

Lemma extract_and_parse_page w ev :
  match page_read w with
  | Ret p =>
      ∃ d v, extract_and_parse w {| driver := true; events := ev |}
             = ({| driver := true; events := (ev ++ [QuitCalled])%list |},
                Ret (Some d))
             ∧ d !! "Sent by" = Some (PyStr v)
  | Exc _ =>
      extract_and_parse w {| driver := true; events := ev |}
      = ({| driver := true; events := (ev ++ [QuitCalled])%list |}, Ret None)
  end.
Proof.
  unfold extract_and_parse. destruct (page_read w) as [p|e] eqn:Hp.
  - rewrite extract_certificate_info_result.
    destruct (parse_with_openai_always_has_sender py_search (api_key w) (chat w)
                {| certificate_html := default "" (certificate_section p);
                   timeline_html := joined_markup (timeline_blocks p);
                   sent_by_blocks := omap candidate_of (timeline_blocks p) |})
      as [(d & v & Ed & Hv) _].
    unfold mbind, M_bind, lift. rewrite Ed.
    rewrite bool_decide_eq_false_2 by (by eapply parsed_not_empty).
    rewrite cleanup_returns. simpl. eauto.
  - simpl. unfold mbind, M_bind. by rewrite cleanup_returns.
Qed.

Lemma run_outcome (w : script) :
  ((∃ s d, run w fresh = (s, Ret (Some d)))
   ↔ chrome w = Ret () ∧ maximize_window w = Ret ()
     ∧ (navigate_directly_to_document w = Ret true
        ∨ (navigate_directly_to_document w = Ret false
           ∧ login w = Ret true ∧ navigate_to_document w = Ret true))
     ∧ ∃ p, page_read w = Ret p)
  ∧ ∀ s d, run w fresh = (s, Ret (Some d)) →
      ∃ v, d !! "Sent by" = Some (PyStr v).
Proof.
  pose proof (extract_and_parse_page w [Launched]) as Hpage.
  unfold run, try_M, setup_driver, try_M, start_chrome, mbind, M_bind, lift.
  simpl.
  destruct (chrome w) as [[]|e1]; simpl;
    [|split; [split; [by intros (? & ? & [=])|by intros ([=] & _)]
             |by intros ? ? [=]]].
  destruct (maximize_window w) as [[]|e2]; simpl;
    [|split; [split; [by intros (? & ? & [=])|by intros (_ & [=] & _)]
             |by intros ? ? [=]]].
  destruct (navigate_directly_to_document w) as [[]|e3]; simpl.
  - destruct (page_read w) as [p|e] eqn:Hp.
    + destruct Hpage as (d & v & -> & Hv). simpl.
      split; [split; [eauto 10|eauto]|]. intros s d' [= _ <-]. eauto.
    + rewrite Hpage. simpl.
      split; [split; [by intros (? & ? & [=])|by intros (_ & _ & _ & ? & [=])]
             |by intros ? ? [=]].
  - destruct (login w) as [[]|e4]; simpl.
    + destruct (navigate_to_document w) as [[]|e5]; simpl.
      * destruct (page_read w) as [p|e] eqn:Hp.
        -- destruct Hpage as (d & v & -> & Hv). simpl.
           split; [split; [eauto 10|eauto]|]. intros s d' [= _ <-]. eauto.
        -- rewrite Hpage. simpl.
           split; [split; [by intros (? & ? & [=])
                          |by intros (_ & _ & _ & ? & [=])]
                  |by intros ? ? [=]].
      * rewrite cleanup_returns. simpl.
        split; [split; [by intros (? & ? & [=])
                       |by intros (_ & _ & [[=]|(_ & _ & [=])] & _)]
               |by intros ? ? [=]].
      * rewrite cleanup_returns. simpl.
        split; [split; [by intros (? & ? & [=])
                       |by intros (_ & _ & [[=]|(_ & _ & [=])] & _)]
               |by intros ? ? [=]].
    + rewrite cleanup_returns. simpl.
      split; [split; [by intros (? & ? & [=])
                     |by intros (_ & _ & [[=]|(_ & [=] & _)] & _)]
             |by intros ? ? [=]].
    + rewrite cleanup_returns. simpl.
      split; [split; [by intros (? & ? & [=])
                     |by intros (_ & _ & [[=]|(_ & [=] & _)] & _)]
             |by intros ? ? [=]].
  - rewrite cleanup_returns. simpl.
    split; [split; [by intros (? & ? & [=])
                   |by intros (_ & _ & [[=]|([=] & _)] & _)]
           |by intros ? ? [=]].
Qed.

(** [run] returns a result exactly when the browser was set up, the
    document was reached, directly or through [login] followed by
    [navigate_to_document], and the page could be read: field derivation
    never makes a run fail.  The result then always has a string under
    "Sent by". *)
Theorem run_success_criterion (w : script) :
  ((∃ s d, run w fresh = (s, Ret (Some d)))
   ↔ chrome w = Ret () ∧ maximize_window w = Ret ()
     ∧ (navigate_directly_to_document w = Ret true
        ∨ (navigate_directly_to_document w = Ret false
           ∧ login w = Ret true ∧ navigate_to_document w = Ret true))
     ∧ ∃ p, page_read w = Ret p)
  ∧ ∀ s d, run w fresh = (s, Ret (Some d)) →
      ∃ v, d !! "Sent by" = Some (PyStr v).
Proof. apply run_outcome. Qed.

Lemma run_success_criterion_witness :
  ∃ s d v,
    run Fixtures.script_signed fresh = (s, Ret (Some d))
    ∧ d !! "Sent by" = Some (PyStr v).
Proof.
  destruct (run_success_criterion Fixtures.script_signed) as [[_ Hyes] Hsender].
  destruct Hyes as (s & d & E).
  { split; [reflexivity|]. split; [reflexivity|]. split; [left; reflexivity|].
    eexists. reflexivity. }
  destruct (Hsender s d E) as [v Hv]. exists s, d, v. split; assumption.
Defined.


(** A document without certificate, without marked timeline title and
    whose timeline markup does not match the sender pattern is not an
    error: whenever [run] gets to such a page, directly or through [login]
    followed by [navigate_to_document], and no API key is set, it returns
    the four fields, all "Not found". *)
Theorem run_on_unsigned_document (w : script) (p : page) :
  chrome w = Ret () → maximize_window w = Ret () →
  navigate_directly_to_document w = Ret true
  ∨ (navigate_directly_to_document w = Ret false
     ∧ login w = Ret true ∧ navigate_to_document w = Ret true) →
  page_read w = Ret p →
  key_set (api_key w) = false →
  certificate_section p = None →
  omap candidate_of (timeline_blocks p) = [] →
  re_search timeline_pattern (joined_markup (timeline_blocks p)) = None →
  (run w fresh).2
  = Ret (Some (fields_dict not_found not_found not_found not_found)).
Proof.
  intros Hc Hm Hn Hp Hk Hcert Hcand Htl.
  assert (Hpage : ∀ s,
    (extract_and_parse w s).2
    = Ret (Some (fields_dict not_found not_found not_found not_found))).
  { intros s. unfold extract_and_parse.
    rewrite Hp, extract_certificate_info_result.
    rewrite Hcert, Hcand. simpl.
    unfold mbind, M_bind, lift, parse_with_openai. rewrite Hk. simpl.
    rewrite manual_extract_eq. simpl.
    unfold sent_by_outcome, py_search. simpl. rewrite Htl.
    rewrite bool_decide_eq_false_2; [|done]. by rewrite cleanup_returns. }
  unfold run, try_M, setup_driver, try_M, start_chrome, mbind, M_bind, lift.
  simpl. rewrite Hc, Hm. simpl.
  destruct Hn as [Hn | (Hn & Hl & Hd)]; rewrite Hn; simpl.
  - specialize (Hpage {| driver := true; events := [Launched] |}).
    by destruct (extract_and_parse w _) as [s [r|e]].
  - rewrite Hl. simpl. rewrite Hd. simpl.
    specialize (Hpage {| driver := true; events := [Launched] |}).
    by destruct (extract_and_parse w _) as [s [r|e]].
Qed.

Lemma run_on_unsigned_document_witness :
  (run {| chrome := Ret (); maximize_window := Ret ();
          navigate_directly_to_document := Ret false;
          login := Ret true; navigate_to_document := Ret true;
          page_read := Ret page_unsigned; api_key := None;
          chat := Fixtures.chat_down; quit := Ret () |} fresh).2
  = Ret (Some (fields_dict not_found not_found not_found not_found)).
Proof.
  apply (run_on_unsigned_document
           {| chrome := Ret (); maximize_window := Ret ();
              navigate_directly_to_document := Ret false;
              login := Ret true; navigate_to_document := Ret true;
              page_read := Ret page_unsigned; api_key := None;
              chat := Fixtures.chat_down; quit := Ret () |} page_unsigned);
    try reflexivity.
  right. repeat split; reflexivity.
Defined.

(** The two probes of [check_authentication_status] treat exceptions
    differently: on a login URL an exception of the login-form probe other
    than NoSuchElementException leaves the method as it is, after that one
    probe; an exception of the user-menu probe is swallowed and counts as
    no user menu. *)
Theorem check_authentication_status_probe_errors (v : dom_view) (e : string) :
  contains "proposals/view" (current_url v) = false →
  contains "dashboard" (current_url v) = false →
  (contains "/login/" (current_url v) = true →
   find_form_login v = FindError e →
   check_authentication_status v = ([ProbeFormLogin], Exc e))
  ∧ (find_user_menu v = Exc e →
     find_form_login v = NoSuchElement ∨ contains "/login/" (current_url v) = false →
     (check_authentication_status v).2 = Ret false).
Proof.
  intros H1 H2. unfold check_authentication_status, user_menu_found.
  rewrite H1, H2. simpl. split.
  - by intros -> ->.
  - intros -> [-> | ->]; [|done].
    by destruct (contains "/login/" (current_url v)).
Qed.

Lemma check_authentication_status_probe_errors_witness :
  check_authentication_status
    {| current_url := "https://betterproposals.io/2/login/";
       find_form_login := FindError "invalid session id";
       find_user_menu := Exc "invalid session id" |}
  = ([ProbeFormLogin], Exc "invalid session id")
  ∧ (check_authentication_status
       {| current_url := "https://betterproposals.io/2/settings";
          find_form_login := Found;
          find_user_menu := Exc "invalid session id" |}).2 = Ret false.
Proof.
  split.
  - apply (check_authentication_status_probe_errors
             {| current_url := "https://betterproposals.io/2/login/";
                find_form_login := FindError "invalid session id";
                find_user_menu := Exc "invalid session id" |}
             "invalid session id"); reflexivity.
  - apply (check_authentication_status_probe_errors
             {| current_url := "https://betterproposals.io/2/settings";
                find_form_login := Found;
                find_user_menu := Exc "invalid session id" |}
             "invalid session id"); try reflexivity.
    right. reflexivity.
Defined.
End SessionMore.

(** * More about the sheet readers *)

Section SheetUrl.
Import PyStr Extraction Batch More.

Lemma strip_prefix_blocked p o u r :
  all_chars p u = true → blocks p o = true →
  strip_prefix o (u ++ String "/" r) = None.
Proof.
  revert o. induction u as [|c u IH]; intros o Hu Ho.
  - destruct o as [|a o]; [done|]. simpl in Ho.
    change ("" ++ String "/" r) with (String "/" r). simpl.
    by destruct (Ascii.eqb a "/").
  - destruct o as [|a o]; [done|]. simpl in Hu, Ho.
    apply andb_true_iff in Hu as [Hc Hu]. apply andb_true_iff in Ho as [_ Ho].
    change (String c u ++ String "/" r) with (String c (u ++ String "/" r)).
    simpl. destruct (Ascii.eqb a c) eqn:E; [|done].
    apply Ascii.eqb_eq in E as ->. rewrite Hc in Ho. simpl in Ho.
    by apply IH.
Qed.

Lemma replace_from_run p old new u r :
  all_chars p u = true → blocks p old = true →
  replace_from old new 0 (u ++ String "/" r)
  = u ++ replace_from old new 0 (String "/" r).
Proof.
  intros Hu Ho. induction u as [|c u IH]; [done|].
  change (String c u ++ String "/" r) with (String c (u ++ String "/" r)).
  cbn [replace_from]. unfold startswith.
  change (String c (u ++ String "/" r)) with (String c u ++ String "/" r).
  rewrite (strip_prefix_blocked p old (String c u) r Hu Ho).
  simpl in Hu. apply andb_true_iff in Hu as [_ Hu].
  change (String c u ++ replace_from old new 0 (String "/" r))
    with (String c (u ++ replace_from old new 0 (String "/" r))).
  by rewrite IH.
Qed.

Lemma replace_from_rejected old new pre s :
  rejected_along (strip_prefix old) pre s = true →
  replace_from old new 0 (pre ++ s) = pre ++ replace_from old new 0 s.
Proof.
  induction pre as [|c pre IH]; [done|]. cbn [rejected_along].
  destruct (strip_prefix old (String c pre ++ s)) eqn:E; [done|]. intros H.
  change (String c pre ++ s) with (String c (pre ++ s)) in *.
  cbn [replace_from]. unfold startswith. rewrite E.
  change (String c pre ++ replace_from old new 0 s)
    with (String c (pre ++ replace_from old new 0 s)).
  by rewrite IH.
Qed.

Lemma lazy_any_rejected k pre s :
  rejected_along k pre s = true → lazy_any k (pre ++ s) = lazy_any k s.
Proof.
  induction pre as [|c pre IH]; [done|]. cbn [rejected_along].
  destruct (k (String c pre ++ s)) eqn:E; [done|]. intros H.
  change (String c pre ++ s) with (String c (pre ++ s)) in *.
  cbn [lazy_any]. rewrite E. by apply IH.
Qed.

Lemma greedy_star_group_run p u r :
  all_chars p u = true → p "/"%char = false →
  greedy_star_group (λ _, Some "") p (u ++ String "/" r) = Some u.
Proof.
  intros Hu Hs. induction u as [|c u IH].
  - change ("" ++ String "/" r) with (String "/" r). simpl. by rewrite Hs.
  - simpl in Hu. apply andb_true_iff in Hu as [Hc Hu].
    change (String c u ++ String "/" r) with (String c (u ++ String "/" r)).
    cbn [greedy_star_group]. by rewrite Hc, (IH Hu).
Qed.

Lemma export_url_share id :
  all_chars sheet_id_char id = true → export_url (share_url id) = csv_url id.
Proof.
  intros Hid. unfold export_url, share_url, csv_url.
  rewrite contains_app_l.
  2:{ apply contains_app_l. reflexivity. }
  unfold replace.
  rewrite replace_from_rejected by (vm_compute; reflexivity).
  change (id ++ "/edit?usp=sharing") with (id ++ String "/" "edit?usp=sharing").
  rewrite (replace_from_run sheet_id_char) by done.
  reflexivity.
Qed.

Lemma sheet_id_of_share id :
  all_chars sheet_id_char id = true → id ≠ "" →
  re_search sheet_id_pattern (share_url id) = Some id.
Proof.
  intros Hid Hne. unfold re_search, share_url.
  change ("https://docs.google.com/spreadsheets/d/" ++ id ++ "/edit?usp=sharing")
    with ("https://docs.google.com/spreadsheets"
          ++ String "/" (String "d" (String "/" (id ++ String "/" "edit?usp=sharing")))).
  rewrite lazy_any_rejected by (vm_compute; reflexivity).
  destruct id as [|c id]; [done|]. simpl in Hid.
  apply andb_true_iff in Hid as [Hc Hid].
  change (String c id ++ String "/" "edit?usp=sharing")
    with (String c (id ++ String "/" "edit?usp=sharing")).
  cbn. rewrite Hc. by rewrite greedy_star_group_run.
Qed.

(** For the link of a shared sheet, [read_google_sheet] fetches the CSV
    export address of that sheet, and [download_google_sheet] extracts the
    same identifier and fetches the same address: the two readers return
    the same thing. *)
Theorem readers_agree_on_share_link
    (read_csv : string → res DataFrame) (id : string) :
  all_chars sheet_id_char id = true → id ≠ "" →
  export_url (share_url id) = csv_url id
  ∧ re_search sheet_id_pattern (share_url id) = Some id
  ∧ read_google_sheet read_csv (share_url id)
    = match read_csv (csv_url id) with Ret df => Ret (Some df) | Exc _ => Ret None end
  ∧ download_google_sheet read_csv (share_url id)
    = read_google_sheet read_csv (share_url id).
Proof.
  intros Hid Hne.
  pose proof (export_url_share id Hid) as He.
  pose proof (sheet_id_of_share id Hid Hne) as Hs.
  split; [done|]. split; [done|].
  unfold download_google_sheet, read_google_sheet. rewrite He, Hs.
  fold (csv_url id). by destruct (read_csv (csv_url id)).
Qed.

Lemma readers_agree_on_share_link_witness :
  export_url Fixtures.sheet_url
  = "https://docs.google.com/spreadsheets/d/1TGjJziI8OTVekpBriyVpqcKb6z_bKOVSRaVxkLPhWYA/export?format=csv"
  ∧ download_google_sheet Fixtures.read_csv_two Fixtures.sheet_url
    = read_google_sheet Fixtures.read_csv_two Fixtures.sheet_url.
Proof.
  destruct (readers_agree_on_share_link Fixtures.read_csv_two
              "1TGjJziI8OTVekpBriyVpqcKb6z_bKOVSRaVxkLPhWYA")
    as (He & _ & _ & Hd); [reflexivity|discriminate|].
  split; [exact He | exact Hd].
Defined.
End SheetUrl.

(** * More about the batch loop *)

Section BatchMore.
Import PyStr Extraction Batch Fixtures.

(** A processed row whose run returns a non-empty dictionary is written
    all or nothing.  The value for a cell is the entry of the dictionary
    under the corresponding key, "Not found" when the key is missing.
    When each of the four values is kept by its column, as every string
    is, the four cells hold what was kept.  When one of them is refused,
    the row is marked like a failed row, with the message of the first
    refusal: the cells assigned before it do not keep their values. *)
Theorem successful_row_cells
    (scraper_run : nat → pyval → res (option dict))
    (at_store : pyval → res pyval)
    (df : DataFrame) (max_urls : Z) (i : nat) (r d : dict)
    (company url : pyval) :
  rows df !! i = Some r →
  (i < urls_to_process max_urls df)%nat →
  r !! "Company" = Some company →
  r !! "Document type" = Some url →
  scraper_run i url = Ret (Some d) →
  d ≠ ∅ →
  ∃ r', rows (process_table scraper_run at_store df max_urls) !! i = Some r'
        ∧ (∀ signed_by signed_date ip sent_by,
             cell_value at_store (get_or_not_found d "Signed by")
             = Ret signed_by →
             cell_value at_store (get_or_not_found d "Signed date")
             = Ret signed_date →
             cell_value at_store (get_or_not_found d "IP address") = Ret ip →
             cell_value at_store (get_or_not_found d "Sent by") = Ret sent_by →
             r' !! "Extracted Signed by" = Some signed_by
             ∧ r' !! "Extracted Signed date" = Some signed_date
             ∧ r' !! "Extracted IP address" = Some ip
             ∧ r' !! "Extracted Sent by" = Some sent_by)
        ∧ ((∀ k, k ∈ ["Signed by"; "Signed date"; "IP address"; "Sent by"] →
              ∃ v, get_or_not_found d k = PyStr v) →
           r' !! "Extracted Signed by" = Some (get_or_not_found d "Signed by")
           ∧ r' !! "Extracted Signed date"
             = Some (get_or_not_found d "Signed date")
           ∧ r' !! "Extracted IP address"
             = Some (get_or_not_found d "IP address")
           ∧ r' !! "Extracted Sent by" = Some (get_or_not_found d "Sent by"))
        ∧ (∀ kept k later e,
             ["Signed by"; "Signed date"; "IP address"; "Sent by"]
             = (kept ++ k :: later)%list →
             (∀ k', k' ∈ kept →
                ∃ v, cell_value at_store (get_or_not_found d k') = Ret v) →
             cell_value at_store (get_or_not_found d k) = Exc e →
             r' !! "Extracted Signed by" = Some (PyStr ("Error: " ++ e))
             ∧ r' !! "Extracted Signed date" = Some (PyStr "Error")
             ∧ r' !! "Extracted IP address" = Some (PyStr "Error")
             ∧ r' !! "Extracted Sent by" = Some (PyStr "Error")).
Proof.
  intros Hr Hi Hc Hu Hrun Hne.
  rewrite process_table_rows, Hr, bool_decide_eq_true_2 by done. simpl.
  eexists. split; [done|].
  unfold extracted_values, iloc_get, getitem. rewrite Hr, Hc, Hu. simpl.
  rewrite Hrun. simpl. rewrite bool_decide_eq_false_2 by done. simpl.
  assert (Hkept : ∀ signed_by signed_date ip sent_by,
    cell_value at_store (get_or_not_found d "Signed by") = Ret signed_by →
    cell_value at_store (get_or_not_found d "Signed date") = Ret signed_date →
    cell_value at_store (get_or_not_found d "IP address") = Ret ip →
    cell_value at_store (get_or_not_found d "Sent by") = Ret sent_by →
    ∀ r0 : dict,
      let r' := fill_values
        match
          (signed_by ← cell_value at_store (get_or_not_found d "Signed by");
           signed_date ← cell_value at_store (get_or_not_found d "Signed date");
           ip ← cell_value at_store (get_or_not_found d "IP address");
           sent_by ← cell_value at_store (get_or_not_found d "Sent by");
           mret (signed_by, signed_date, ip, sent_by))
        with
        | Ret values => values
        | Exc e => (PyStr ("Error: " ++ e), PyStr "Error", PyStr "Error",
                    PyStr "Error")
        end r0 in
      r' !! "Extracted Signed by" = Some signed_by
      ∧ r' !! "Extracted Signed date" = Some signed_date
      ∧ r' !! "Extracted IP address" = Some ip
      ∧ r' !! "Extracted Sent by" = Some sent_by).
  { intros a b c s -> -> -> -> r0. simpl. unfold fill_row.
    repeat split; by simplify_map_eq. }
  split; [intros a b c s Ha Hb Hc' Hs; by apply Hkept|]. split.
  - intros Hstr.
    destruct (Hstr "Signed by") as [a Ha]; [repeat constructor|].
    destruct (Hstr "Signed date") as [b Hb]; [repeat constructor|].
    destruct (Hstr "IP address") as [c Hc']; [repeat constructor|].
    destruct (Hstr "Sent by") as [s Hs]; [repeat constructor|].
    apply Hkept; by rewrite ?Ha, ?Hb, ?Hc', ?Hs.
  - intros kept k later e Hsplit Hk He.
    assert (Hmark : ∀ r0 : dict,
      let r' := fill_values (PyStr ("Error: " ++ e), PyStr "Error",
                             PyStr "Error", PyStr "Error") r0 in
      r' !! "Extracted Signed by" = Some (PyStr ("Error: " ++ e))
      ∧ r' !! "Extracted Signed date" = Some (PyStr "Error")
      ∧ r' !! "Extracted IP address" = Some (PyStr "Error")
      ∧ r' !! "Extracted Sent by" = Some (PyStr "Error")).
    { intros r0. simpl. unfold fill_row. repeat split; by simplify_map_eq. }
    destruct kept as [|k1 [|k2 [|k3 [|k4 kept]]]]; simplify_eq/=.
    + rewrite He. apply Hmark.
    + destruct (Hk "Signed by") as [a ->]; [repeat constructor|]. simpl.
      rewrite He. apply Hmark.
    + destruct (Hk "Signed by") as [a ->]; [repeat constructor|].
      destruct (Hk "Signed date") as [b ->]; [repeat constructor|]. simpl.
      rewrite He. apply Hmark.
    + destruct (Hk "Signed by") as [a ->]; [repeat constructor|].
      destruct (Hk "Signed date") as [b ->]; [repeat constructor|].
      destruct (Hk "IP address") as [c ->]; [repeat constructor|]. simpl.
      rewrite He. apply Hmark.
    + by destruct kept.
Qed.

Lemma successful_row_cells_witness :
  ∃ r' r'',
    rows (process_table (fun _ _ => Ret (Some More.result_with_number)) at_str
            df_two 10) !! 1%nat = Some r'
    ∧ r' !! "Extracted Signed by"
      = Some (PyStr "Error: Invalid value for dtype 'str'")
    ∧ r' !! "Extracted Sent by" = Some (PyStr "Error")
    ∧ rows (process_table (fun _ _ => Ret (Some More.result_with_number))
              at_object df_two 10) !! 1%nat = Some r''
    ∧ r'' !! "Extracted Signed by" = Some (PyStr "Jane Doe")
    ∧ r'' !! "Extracted Signed date" = Some (PyInt 2025)
    ∧ r'' !! "Extracted IP address" = Some (PyStr "Not found").
Proof.
  destruct (successful_row_cells
              (fun _ _ => Ret (Some More.result_with_number)) at_str
              df_two 10 1
              (<["Document type" := PyStr "https://betterproposals.io/2/proposals/view?id=2"]>
                 (<["Company" := PyStr "Globex"]> ∅))
              More.result_with_number
              (PyStr "Globex")
              (PyStr "https://betterproposals.io/2/proposals/view?id=2"))
    as (r' & Hr' & _ & _ & Hrefused); try reflexivity.
  { vm_compute. lia. }
  { intros H. apply (f_equal (lookup "Signed by")) in H. discriminate H. }
  destruct (successful_row_cells
              (fun _ _ => Ret (Some More.result_with_number)) at_object
              df_two 10 1
              (<["Document type" := PyStr "https://betterproposals.io/2/proposals/view?id=2"]>
                 (<["Company" := PyStr "Globex"]> ∅))
              More.result_with_number
              (PyStr "Globex")
              (PyStr "https://betterproposals.io/2/proposals/view?id=2"))
    as (r'' & Hr'' & Hkept & _ & _); try reflexivity.
  { vm_compute. lia. }
  { intros H. apply (f_equal (lookup "Signed by")) in H. discriminate H. }
  destruct (Hrefused ["Signed by"] "Signed date" ["IP address"; "Sent by"]
              "Invalid value for dtype 'str'") as (H1 & _ & _ & H4).
  { reflexivity. }
  { intros k Hk. apply list_elem_of_singleton in Hk as ->. eexists. reflexivity. }
  { reflexivity. }
  destruct (Hkept (PyStr "Jane Doe") (PyInt 2025) (PyStr "Not found")
              (PyStr "Alice")) as (K1 & K2 & K3 & _); try reflexivity.
  exists r', r''. split; [exact Hr'|]. split; [exact H1|]. split; [exact H4|].
  split; [exact Hr''|]. split; [exact K1|]. split; [exact K2 | exact K3].
Defined.

(** A sheet without the column Company, or without the column Document
    type, is not rejected: every processed row is marked with the name of
    the missing column as error message, and no scraper is run for it. *)
Theorem missing_column_marks_row
    (scraper_run : nat → pyval → res (option dict))
    (at_store : pyval → res pyval)
    (df : DataFrame) (max_urls : Z) (i : nat) (r : dict) (column : string) :
  rows df !! i = Some r →
  (i < urls_to_process max_urls df)%nat →
  (column = "Company" ∧ r !! "Company" = None)
  ∨ (column = "Document type" ∧ is_Some (r !! "Company")
     ∧ r !! "Document type" = None) →
  ∃ r', rows (process_table scraper_run at_store df max_urls) !! i = Some r'
        ∧ r' !! "Extracted Signed by" = Some (PyStr ("Error: '" ++ column ++ "'"))
        ∧ r' !! "Extracted Signed date" = Some (PyStr "Error")
        ∧ r' !! "Extracted IP address" = Some (PyStr "Error")
        ∧ r' !! "Extracted Sent by" = Some (PyStr "Error").
Proof.
  intros Hr Hi Hmiss.
  rewrite process_table_rows, Hr, bool_decide_eq_true_2 by done. simpl.
  eexists. split; [done|].
  unfold extracted_values, iloc_get, getitem. rewrite Hr.
  destruct Hmiss as [(-> & Hc) | (-> & [c Hc] & Hd)]; rewrite Hc; simpl;
    rewrite ?Hd; simpl; unfold fill_row; repeat split; by simplify_map_eq.
Qed.

Lemma missing_column_marks_row_witness :
  ∃ r', rows (process_table run_found at_str
                {| columns := ["Client"];
                   rows := [<["Client" := PyStr "Acme"]> ∅] |} 10) !! 0%nat
        = Some r'
        ∧ r' !! "Extracted Signed by" = Some (PyStr "Error: 'Company'").
Proof.
  destruct (missing_column_marks_row run_found at_str
              {| columns := ["Client"];
                 rows := [<["Client" := PyStr "Acme"]> ∅] |} 10 0
              (<["Client" := PyStr "Acme"]> ∅) "Company")
    as (r' & Hr' & H1 & _); try reflexivity.
  { vm_compute. lia. }
  { left. split; reflexivity. }
  exists r'. split; [exact Hr' | exact H1].
Defined.

(** With [max_urls] zero or negative nothing is processed: every row is
    written out with four empty result cells, whatever the scraper would
    have returned. *)
Theorem nothing_processed_without_budget
    (scraper_run : nat → pyval → res (option dict))
    (at_store : pyval → res pyval)
    (df : DataFrame) (max_urls : Z) :
  (max_urls ≤ 0)%Z →
  rows (process_table scraper_run at_store df max_urls) = blank_row <$> rows df.
Proof.
  intros Hmax. apply list_eq. intros j.
  rewrite process_table_rows, list_lookup_fmap.
  rewrite bool_decide_eq_false_2; [done|].
  unfold urls_to_process. lia.
Qed.

Lemma nothing_processed_without_budget_witness :
  rows (process_table run_found at_str df_two (-3)) = blank_row <$> rows df_two.
Proof. apply (nothing_processed_without_budget run_found at_str df_two (-3)). lia. Defined.

Lemma filter_fresh_ext (cols : list string) (c : string) (cs : list string) :
  c ∉ cs →
  filter (λ x, x ∉ (cols ++ [c])%list) cs = filter (λ x, x ∉ cols) cs.
Proof.
  induction cs as [|x cs IH]; intros Hc; [done|].
  apply not_elem_of_cons in Hc as [Hne Hc].
  destruct (decide (x ∈ cols)) as [Hx|Hx].
  - rewrite !filter_cons_False; [by apply IH| |].
    + by intros H.
    + intros H. apply H, elem_of_app. by left.
  - rewrite !filter_cons_True; [by rewrite IH|done|].
    intros [H|H%list_elem_of_singleton]%elem_of_app; [done|congruence].
Qed.

Lemma add_columns_columns (v : pyval) (cs : list string) (df : DataFrame) :
  NoDup cs →
  columns (foldl (λ acc c, set_column c v acc) df cs)
  = (columns df ++ filter (λ c, c ∉ columns df) cs)%list.
Proof.
  revert df. induction cs as [|c cs IH]; intros df Hnd; simpl.
  - by rewrite app_nil_r.
  - apply NoDup_cons in Hnd as [Hc Hnd]. rewrite IH by done.
    unfold set_column at 1 2. simpl.
    destruct (decide (c ∈ columns df)) as [Hin|Hin].
    + rewrite bool_decide_eq_true_2 by done.
      rewrite filter_cons_False; [done|]. by intros H.
    + rewrite bool_decide_eq_false_2 by done.
      rewrite filter_cons_True by done.
      rewrite filter_fresh_ext by done. by rewrite <- app_assoc.
Qed.

(** The columns of the output in general: the input columns in their
    order, followed by those of the four result columns that the input
    does not already have; and every output row has a cell under each of
    the four names. *)
Theorem output_columns
    (scraper_run : nat → pyval → res (option dict))
    (at_store : pyval → res pyval)
    (df : DataFrame) (max_urls : Z) :
  columns (process_table scraper_run at_store df max_urls)
  = (columns df
     ++ filter (λ c, c ∉ columns df) extracted_columns)%list
  ∧ ∀ i r' c, rows (process_table scraper_run at_store df max_urls) !! i = Some r' →
      c ∈ extracted_columns → is_Some (r' !! c).
Proof.
  split.
  - unfold process_table. rewrite loop_columns.
    apply (add_columns_columns (PyStr "") extracted_columns df).
    apply (bool_decide_unpack _). by vm_compute.
  - intros i r' c Hr' Hc. rewrite process_table_rows in Hr'.
    destruct (rows df !! i) as [r|]; [|done]. simpl in Hr'.
    apply extracted_columns_elem in Hc.
    destruct (bool_decide _); injection Hr' as <-; simpl.
    + destruct (extracted_values scraper_run at_store df i) as [[[a b] c'] d].
      unfold fill_values, fill_row.
      destruct Hc as [->|[->|[->| ->]]]; eexists; by simplify_map_eq.
    + unfold blank_row, fill_row.
      destruct Hc as [->|[->|[->| ->]]]; eexists; by simplify_map_eq.
Qed.

Lemma output_columns_witness :
  columns (process_table run_found at_str df_rerun 10)
  = ["Company"; "Document type"; "Extracted Signed by";
     "Extracted Signed date"; "Extracted IP address"; "Extracted Sent by"]
  ∧ ∀ r', rows (process_table run_found at_str df_rerun 10) !! 0%nat = Some r' →
          is_Some (r' !! "Extracted Sent by").
Proof.
  destruct (output_columns run_found at_str df_rerun 10) as [Hc Hr].
  split; [rewrite Hc; reflexivity|].
  intros r' E. apply (Hr 0%nat r' _ E).
  do 3 apply list_elem_of_further. apply list_elem_of_here.
Defined.

(** The batch gives up only when the CSV file cannot be written: reading
    the sheet and processing the rows never abort it. *)
Theorem batch_fails_only_on_write
    (read_csv : string → res DataFrame)
    (to_csv : string → DataFrame → res unit)
    (scraper_run : nat → pyval → res (option dict))
    (at_store : pyval → res pyval)
    (sheet_url : string) (max_urls : Z) :
  ∃ df,
    load_table read_csv sheet_url = Ret df
    ∧ (process_urls_from_sheet read_csv to_csv scraper_run at_store sheet_url max_urls
       = None
       ↔ ∃ e, to_csv "proposal.csv" (process_table scraper_run at_store df max_urls)
              = Exc e).
Proof.
  destruct (load_table_returns read_csv sheet_url) as [df Hdf].
  exists df. split; [done|].
  rewrite (process_urls_from_sheet_table _ _ _ _ _ _ _ Hdf).
  destruct (to_csv _ _) as [[]|e]; split; try done; eauto.
  by intros [? [=]].
Qed.

(** Of the two readers only [read_google_sheet] matters: the table the
    batch runs over is decided by what [pd.read_csv] answers at the export
    address it derives, and by nothing else. *)
Theorem only_first_reader_matters
    (read_csv read_csv' : string → res DataFrame) (sheet_url : string) :
  read_csv (export_url sheet_url) = read_csv' (export_url sheet_url) →
  load_table read_csv sheet_url = load_table read_csv' sheet_url.
Proof. intros H. by rewrite !load_table_first_reader, H. Qed.

Lemma only_first_reader_matters_witness :
  load_table
    (λ u, if String.eqb u (export_url sheet_url) then Exc "HTTP Error 404: Not Found"
          else Ret df_two) sheet_url
  = load_table read_csv_down sheet_url.
Proof.
  apply (only_first_reader_matters
           (λ u, if String.eqb u (export_url sheet_url) then Exc "HTTP Error 404: Not Found"
                 else Ret df_two) read_csv_down sheet_url).
  reflexivity.
Defined.

Lemma batch_fails_only_on_write_witness :
  process_urls_from_sheet read_csv_down (λ _ _, Exc "Permission denied")
    run_none at_str sheet_url 10 = None.
Proof.
  destruct (batch_fails_only_on_write read_csv_down
              (λ _ _, Exc "Permission denied") run_none at_str sheet_url 10)
    as (df & _ & Hiff).
  apply Hiff. eexists. reflexivity.
Defined.
End BatchMore.

Section BatchWithRun.
Import PyStr Extraction Batch.

(** A result of [run] is what [parse_with_openai] made of the page. *)
Lemma extract_and_parse_result (w : Session.script) st s d :
  Session.extract_and_parse w st = (s, Ret (Some d)) →
  ∃ raw,
    (parse_with_openai py_search (Session.api_key w) (Session.chat w) raw).2
    = Ret d.
Proof.
  unfold Session.extract_and_parse.
  destruct (extract_certificate_info (Session.page_read w)) as [raw|].
  - unfold mbind, Session.M_bind, Session.lift.
    destruct (parse_with_openai py_search (Session.api_key w) (Session.chat w)
                raw).2 as [parsed|e] eqn:E; [|done].
    destruct (bool_decide (parsed = ∅)); rewrite cleanup_returns; simpl;
      intros [= _ <-]. eauto.
  - unfold mbind, Session.M_bind. by rewrite cleanup_returns.
Qed.

Lemma run_result_parsed (w : Session.script) s d :
  Session.run w Session.fresh = (s, Ret (Some d)) →
  ∃ raw,
    (parse_with_openai py_search (Session.api_key w) (Session.chat w) raw).2
    = Ret d.
Proof.
  unfold Session.run, Session.try_M, Session.setup_driver, Session.try_M,
    Session.start_chrome, mbind, Session.M_bind, Session.lift.
  simpl.
  destruct (Session.chrome w) as [[]|e1]; simpl; [|done].
  destruct (Session.maximize_window w) as [[]|e2]; simpl; [|done].
  assert (Hpage : ∀ st,
    match Session.extract_and_parse w st with
    | (s', Exc _) =>
        let '(s0, r) := Session.cleanup w s' in
        match r with
        | Ret _ => (s0, Ret None)
        | Exc e => (s0, Exc e)
        end
    | r => r
    end = (s, Ret (Some d)) →
    ∃ raw,
      (parse_with_openai py_search (Session.api_key w) (Session.chat w) raw).2
      = Ret d).
  { intros st.
    destruct (Session.extract_and_parse w st) as [s' [o|e]] eqn:E.
    - intros [= -> ->]. by eapply extract_and_parse_result.
    - by rewrite cleanup_returns. }
  destruct (Session.navigate_directly_to_document w) as [[]|e3]; simpl;
    [apply Hpage| |by rewrite cleanup_returns].
  destruct (Session.login w) as [[]|e4]; simpl;
    [|by rewrite cleanup_returns..].
  destruct (Session.navigate_to_document w) as [[]|e5]; simpl;
    [apply Hpage|by rewrite cleanup_returns..].
Qed.

(** A value that a result column refuses is a non-string entry of the
    result, and the result was given by the model service. *)
Lemma refused_value_origin (w : Session.script) (at_store : pyval → res pyval)
    s d k e :
  Session.run w Session.fresh = (s, Ret (Some d)) →
  cell_value at_store (get_or_not_found d k) = Exc e →
  key_set (Session.api_key w) = true
  ∧ ∃ x, d !! k = Some x ∧ ∀ t, x ≠ PyStr t.
Proof.
  intros Hrun He.
  assert (Hx : ∃ x, d !! k = Some x ∧ ∀ t, x ≠ PyStr t).
  { unfold get_or_not_found in He.
    destruct (d !! k) as [x|]; simpl in He; [|done].
    exists x. split; [done|]. intros t ->. done. }
  split; [|exact Hx].
  destruct (key_set (Session.api_key w)) eqn:Hk; [done|].
  destruct (run_result_parsed w s d Hrun) as [raw Hraw].
  unfold parse_with_openai in Hraw. rewrite Hk in Hraw. simpl in Hraw.
  rewrite manual_extract_eq in Hraw. simpl in Hraw. injection Hraw as <-.
  destruct Hx as (x & Hx & Hnot). unfold fields_dict in Hx.
  destruct (decide (k = "Sent by")) as [->|];
    [simplify_map_eq; by edestruct Hnot|].
  destruct (decide (k = "IP address")) as [->|];
    [simplify_map_eq; by edestruct Hnot|].
  destruct (decide (k = "Signed date")) as [->|];
    [simplify_map_eq; by edestruct Hnot|].
  destruct (decide (k = "Signed by")) as [->|];
    [simplify_map_eq; by edestruct Hnot|].
  by simplify_map_eq.
Qed.

(** With [run] as the per-row pipeline, a processed row that has both
    required columns ends in one of three ways.  [run] returned None, and
    the four cells are "Error".  Or [run] returned a result, whose sender
    is a string, and the cells hold the values their columns kept.  Or the
    row is marked with an error message because a result column refused
    the value for Signed by, Signed date or IP address: that value is then
    a non-string entry of the result, and an API key was set, so that the
    result came from the model service.  Without an API key a returned
    result is therefore always written. *)
Theorem batch_row_with_run
    (world : nat → Session.script) (at_store : pyval → res pyval)
    (df : DataFrame) (max_urls : Z)
    (i : nat) (r : dict) (company url : pyval) :
  rows df !! i = Some r →
  (i < urls_to_process max_urls df)%nat →
  r !! "Company" = Some company →
  r !! "Document type" = Some url →
  ∃ r',
    rows (process_table (scraper_run_of world) at_store df max_urls) !! i
    = Some r'
    ∧ (((Session.run (world i) Session.fresh).2 = Ret None
        ∧ ∀ c, c ∈ extracted_columns → r' !! c = Some (PyStr "Error"))
       ∨ ∃ d v,
           (Session.run (world i) Session.fresh).2 = Ret (Some d)
           ∧ d !! "Sent by" = Some (PyStr v)
           ∧ ((∃ signed_by signed_date ip,
                 cell_value at_store (get_or_not_found d "Signed by")
                 = Ret signed_by
                 ∧ cell_value at_store (get_or_not_found d "Signed date")
                   = Ret signed_date
                 ∧ cell_value at_store (get_or_not_found d "IP address")
                   = Ret ip
                 ∧ r' !! "Extracted Signed by" = Some signed_by
                 ∧ r' !! "Extracted Signed date" = Some signed_date
                 ∧ r' !! "Extracted IP address" = Some ip
                 ∧ r' !! "Extracted Sent by" = Some (PyStr v))
              ∨ ∃ k e x,
                  k ∈ ["Signed by"; "Signed date"; "IP address"]
                  ∧ key_set (Session.api_key (world i)) = true
                  ∧ d !! k = Some x
                  ∧ (∀ t, x ≠ PyStr t)
                  ∧ cell_value at_store x = Exc e
                  ∧ r' !! "Extracted Signed by" = Some (PyStr ("Error: " ++ e))
                  ∧ r' !! "Extracted Signed date" = Some (PyStr "Error")
                  ∧ r' !! "Extracted IP address" = Some (PyStr "Error")
                  ∧ r' !! "Extracted Sent by" = Some (PyStr "Error"))).
Proof.
  intros Hr Hi Hc Hu.
  rewrite process_table_rows, Hr, bool_decide_eq_true_2 by done. simpl.
  eexists. split; [done|].
  unfold extracted_values, iloc_get, getitem. rewrite Hr, Hc, Hu. simpl.
  unfold scraper_run_of.
  destruct (run_returns (world i)) as (s & res & E).
  destruct (run_outcome (world i)) as [_ Hsender].
  rewrite E in Hsender |- *. simpl. destruct res as [d|]; simpl.
  - destruct (Hsender s d eq_refl) as [v Hv].
    rewrite bool_decide_eq_false_2 by (by eapply parsed_not_empty). simpl.
    right. exists d, v. split; [done|]. split; [done|].
    assert (Hmark : ∀ k e,
      k ∈ ["Signed by"; "Signed date"; "IP address"] →
      cell_value at_store (get_or_not_found d k) = Exc e →
      let r' := fill_row (PyStr ("Error: " ++ e)) (PyStr "Error")
                  (PyStr "Error") (PyStr "Error") (blank_row r) in
      ∃ k e x,
        k ∈ ["Signed by"; "Signed date"; "IP address"]
        ∧ key_set (Session.api_key (world i)) = true
        ∧ d !! k = Some x
        ∧ (∀ t, x ≠ PyStr t)
        ∧ cell_value at_store x = Exc e
        ∧ r' !! "Extracted Signed by" = Some (PyStr ("Error: " ++ e))
        ∧ r' !! "Extracted Signed date" = Some (PyStr "Error")
        ∧ r' !! "Extracted IP address" = Some (PyStr "Error")
        ∧ r' !! "Extracted Sent by" = Some (PyStr "Error")).
    { intros k e Hk He.
      destruct (refused_value_origin (world i) at_store s d k e E He)
        as (Hkey & x & Hx & Hnot).
      exists k, e, x. split; [done|]. split; [done|]. split; [done|].
      split; [done|]. split.
      { unfold get_or_not_found in He. by rewrite Hx in He. }
      simpl. unfold fill_row. repeat split; by simplify_map_eq. }
    destruct (cell_value at_store (get_or_not_found d "Signed by"))
      as [a|e] eqn:Ea; simpl;
      [|right; apply (Hmark "Signed by" e); [repeat constructor|done]].
    destruct (cell_value at_store (get_or_not_found d "Signed date"))
      as [b|e] eqn:Eb; simpl;
      [|right; apply (Hmark "Signed date" e); [repeat constructor|done]].
    destruct (cell_value at_store (get_or_not_found d "IP address"))
      as [c|e] eqn:Ec; simpl;
      [|right; apply (Hmark "IP address" e); [repeat constructor|done]].
    assert (Hs : get_or_not_found d "Sent by" = PyStr v)
      by (unfold get_or_not_found; by rewrite Hv).
    rewrite Hs. simpl.
    left. exists a, b, c. unfold fill_row. repeat split; by simplify_map_eq.
  - left. split; [done|]. intros c Hin. apply extracted_columns_elem in Hin.
    unfold fill_row. destruct Hin as [->|[->|[->| ->]]]; by simplify_map_eq.
Qed.

Lemma batch_row_with_run_witness :
  ∃ r',
    rows (process_table (scraper_run_of (λ _, Fixtures.script_signed))
            Fixtures.at_str Fixtures.df_two 10) !! 0%nat = Some r'
    ∧ r' !! "Extracted Signed by" = Some (PyStr "Jane Doe")
    ∧ r' !! "Extracted IP address" = Some (PyStr "Not found").
Proof.
  destruct (batch_row_with_run (λ _, Fixtures.script_signed) Fixtures.at_str
              Fixtures.df_two 10 0
              (<["Document type" := PyStr "https://betterproposals.io/2/proposals/view?id=1"]>
                 (<["Company" := PyStr "Acme"]> ∅))
              (PyStr "Acme")
              (PyStr "https://betterproposals.io/2/proposals/view?id=1"))
    as (r' & Hr' & Hcases).
  - reflexivity.
  - vm_compute. lia.
  - reflexivity.
  - reflexivity.
  - exists r'. split; [exact Hr'|].
    assert (Hrun : (Session.run Fixtures.script_signed Session.fresh).2
                   = Ret (Some (fields_dict "Jane Doe" "08 May 2025"
                                  "Not found" "Not found")))
      by reflexivity.
    destruct Hcases as [[Hnone _] | (d & v & Hd & _ & [Hkept | Hrefused])].
    + rewrite Hrun in Hnone. congruence.
    + destruct Hkept as (a & b & c & Ha & _ & Hc & -> & _ & -> & _).
      rewrite Hrun in Hd.
      assert (fields_dict "Jane Doe" "08 May 2025" "Not found" "Not found" = d)
        as <- by congruence.
      vm_compute in Ha. vm_compute in Hc.
      injection Ha as <-. injection Hc as <-. split; reflexivity.
    + destruct Hrefused as (k & e & x & _ & Hkey & _).
      vm_compute in Hkey. discriminate Hkey.
Defined.
End BatchWithRun.
